(** * Receipt parsing pipeline of asset-tracker-pro

    A shallow embedding of [python-ai/simple_receipt_parser.py]
    (class [SimpleBedrockReceiptParser]) and the properties of its
    document-to-record pipeline.

    Python values are embedded as follows.
    - A [str] is the list of its Unicode code points ([list N]), so that
      [len], slicing and [strip] count characters as Python does.
    - Values that travel through the pipeline untyped (the decoded replies of
      the inference service, the extracted text, the result envelope) are
      values of [json]: [None], [bool], [int], [float], [str], [list], [dict].
    - A raised exception is a value of [exn]; a computation is a function
      from the state (the remote service and the log of the requests sent to
      it) to a result and a new state.
    - What the module imports from outside the repository (PyMuPDF, the
      Bedrock client, [base64], [json.loads], [str.lower], [repr]) is a field
      of the record [env].
    - The calls of [logger] are left out: they format values that are at
      hand and change nothing of what is returned. *)

From Stdlib Require Import List String Ascii NArith ZArith Bool Lia PrimFloat.
Import ListNotations.

Set Implicit Arguments.
Open Scope string_scope.
Open Scope list_scope.
Set Warnings "-register-all,-inexact-float".

(** ** Python strings *)

Module PyStr.

Definition str := list N.

(** A literal of the source, character by character. *)
Definition lit (s : string) : str :=
  map N_of_ascii (list_ascii_of_string s).

(** The double quote, which the literals below cannot contain. *)
Definition dquote : N := 34%N.

(** [lit] with stand-ins: in the argument [^] is the double quote and [|] is
    the arrow U+2192, the one character of the source's prompts outside
    ASCII. Neither [^] nor [|] occurs in the source's literals. *)
Definition lit_sub (s : string) : str :=
  map (fun c => if N.eqb c 94 then dquote
                else if N.eqb c 124 then 8594%N else c) (lit s).

Fixpoint eqb (a b : str) : bool :=
  match a, b with
  | [], [] => true
  | x :: a', y :: b' => N.eqb x y && eqb a' b'
  | _, _ => false
  end.

(** [s.startswith(p)] *)
Fixpoint startswith (s p : str) : bool :=
  match p, s with
  | [], _ => true
  | y :: p', x :: s' => N.eqb x y && startswith s' p'
  | _ :: _, [] => false
  end.

(** [s.endswith(p)] *)
Definition endswith (s p : str) : bool :=
  startswith (rev s) (rev p).

(** [s.endswith((p1, ..., pn))] *)
Definition endswith_any (s : str) (ps : list str) : bool :=
  existsb (endswith s) ps.

(** [p in s], both strings *)
Fixpoint contains (s p : str) : bool :=
  startswith s p ||
  match s with
  | [] => false
  | _ :: s' => contains s' p
  end.

(** [s[:n]] for [n >= 0] *)
Definition slice_to (n : nat) (s : str) : str := firstn n s.

(** [s[n:]] for [n >= 0] *)
Definition slice_from (n : nat) (s : str) : str := skipn n s.

(** [s[:-n]] for [n > 0] *)
Definition slice_to_neg (n : nat) (s : str) : str :=
  firstn (List.length s - n) s.

(** [c.isspace()] for a single character: the code points of the Unicode
    database with bidirectional type WS, B or S, or of category Zs. *)
Definition isspace (c : N) : bool :=
  ((9 <=? c) && (c <=? 13) || (28 <=? c) && (c <=? 32) ||
   (c =? 133) || (c =? 160) || (c =? 5760) ||
   (8192 <=? c) && (c <=? 8202) || (c =? 8232) || (c =? 8233) ||
   (c =? 8239) || (c =? 8287) || (c =? 12288))%N.

Fixpoint lstrip (s : str) : str :=
  match s with
  | c :: s' => if isspace c then lstrip s' else s
  | [] => []
  end.

Definition rstrip (s : str) : str := rev (lstrip (rev s)).

(** [s.strip()] *)
Definition strip (s : str) : str := rstrip (lstrip s).

(** [s.split(sep)[-1]]: what follows the last [sep] (all of [s] when [sep]
    does not occur), for a one-character separator. *)
Fixpoint split_last (sep : N) (s : str) : str :=
  match s with
  | [] => []
  | c :: s' =>
      if existsb (N.eqb sep) s' then split_last sep s'
      else if N.eqb c sep then s' else s
  end.

End PyStr.
Import PyStr.
Coercion lit : string >-> str.

(** ** Python values and exceptions *)

(** The values [json.loads] produces, which are also the values of every
    dict and list literal of the module. A dict is the list of its items in
    insertion order; its keys are distinct. *)
Inductive json : Type :=
| JNull
| JBool (b : bool)
| JInt (z : Z)
| JFloat (f : float)
| JStr (s : str)
| JArr (l : list json)
| JObj (kv : list (str * json)).

(** The exception classes the module can meet. All derive from [Exception];
    [except json.JSONDecodeError] catches the first one only. Exceptions
    outside [Exception] (interrupts, interpreter exit) are not modelled. *)
Inductive exc_class : Type :=
| JSONDecodeError | TypeError | KeyError | IndexError | AttributeError
| OtherException.

(** An exception: its class and [str(e)]. *)
Record exn : Type := Exn { exn_class : exc_class; exn_str : str }.

Inductive result (A : Type) : Type :=
| Ok (a : A)
| Raise (e : exn).
Arguments Ok {A} a.
Arguments Raise {A} e.

(** Sequencing of steps that have no effect but may raise. *)
Definition and_then {A B} (r : result A) (k : A -> result B) : result B :=
  match r with
  | Ok a => k a
  | Raise e => Raise e
  end.

Declare Scope py_scope.
Delimit Scope py_scope with py.
Notation "x <~ r ;; k" := (and_then r (fun x => k))
  (at level 61, r at next level, right associativity) : py_scope.
Open Scope py_scope.

Definition is_JSONDecodeError (e : exn) : bool :=
  match exn_class e with JSONDecodeError => true | _ => false end.

Module Py.

(** [type(v).__name__] *)
Definition type_name (v : json) : str :=
  match v with
  | JNull => lit "NoneType" | JBool _ => lit "bool" | JInt _ => lit "int"
  | JFloat _ => lit "float" | JStr _ => lit "str" | JArr _ => lit "list"
  | JObj _ => lit "dict"
  end.

Definition type_error (msg : str) : exn := Exn TypeError msg.

Definition not_subscriptable (v : json) : exn :=
  type_error (lit "'" ++ type_name v ++ lit "' object is not subscriptable").

(** [d.get(k)] on the items of a dict *)
Fixpoint lookup (k : str) (kv : list (str * json)) : option json :=
  match kv with
  | [] => None
  | (k', v) :: kv' => if PyStr.eqb k k' then Some v else lookup k kv'
  end.

(** [bool(v)], the test of [if not v] *)
Definition truthy (v : json) : bool :=
  match v with
  | JNull => false
  | JBool b => b
  | JInt z => negb (Z.eqb z 0)
  | JFloat f => negb (PrimFloat.eqb f PrimFloat.zero)
  | JStr s => negb (PyStr.eqb s [])
  | JArr l => match l with [] => false | _ => true end
  | JObj kv => match kv with [] => false | _ => true end
  end.

(** [k in v] for a string [k] *)
Definition contains (k : str) (v : json) : result bool :=
  match v with
  | JObj kv => Ok (match lookup k kv with Some _ => true | None => false end)
  | JArr l =>
      Ok (existsb (fun x => match x with JStr s => PyStr.eqb s k | _ => false end) l)
  | JStr s => Ok (PyStr.contains s k)
  | _ => Raise (type_error (lit "argument of type '" ++ type_name v
                            ++ lit "' is not iterable"))
  end.

(** [v[k]] for a string [k] *)
Definition getitem (v : json) (k : str) : result json :=
  match v with
  | JObj kv =>
      match lookup k kv with
      | Some x => Ok x
      | None => Raise (Exn KeyError (lit "'" ++ k ++ lit "'"))
      end
  | JArr _ =>
      Raise (type_error (lit "list indices must be integers or slices, not str"))
  | JStr _ =>
      Raise (type_error (lit "string indices must be integers, not 'str'"))
  | _ => Raise (not_subscriptable v)
  end.

(** [v[0]]. The keys of a decoded dict are strings, so [0] is never one. *)
Definition getitem0 (v : json) : result json :=
  match v with
  | JObj _ => Raise (Exn KeyError (lit "0"))
  | JArr l =>
      match l with
      | x :: _ => Ok x
      | [] => Raise (Exn IndexError (lit "list index out of range"))
      end
  | JStr s =>
      match s with
      | c :: _ => Ok (JStr [c])
      | [] => Raise (Exn IndexError (lit "string index out of range"))
      end
  | _ => Raise (not_subscriptable v)
  end.

(** [len(v)] *)
Definition len (v : json) : result nat :=
  match v with
  | JStr s => Ok (List.length s)
  | JArr l => Ok (List.length l)
  | JObj kv => Ok (List.length kv)
  | _ => Raise (type_error (lit "object of type '" ++ type_name v
                            ++ lit "' has no len()"))
  end.

(** [v[:n]]. Slicing a dict raises [TypeError] (unhashable slice) up to
    Python 3.11 and [KeyError] from 3.12 on: the exception is [dict_slice]. *)
Definition slice_to (dict_slice : exn) (n : nat) (v : json) : result json :=
  match v with
  | JStr s => Ok (JStr (PyStr.slice_to n s))
  | JArr l => Ok (JArr (firstn n l))
  | JObj _ => Raise dict_slice
  | _ => Raise (not_subscriptable v)
  end.

(** [v + s] for a string [s], where [v] is a [str] or a [list] (all that a
    slice returns) *)
Definition add_str (v : json) (s : str) : result json :=
  match v with
  | JStr t => Ok (JStr (t ++ s))
  | JArr _ =>
      Raise (type_error (lit "can only concatenate list (not "
                         ++ [dquote] ++ lit "str" ++ [dquote] ++ lit ") to list"))
  | _ =>
      Raise (type_error (lit "unsupported operand type(s) for +: '"
                         ++ type_name v ++ lit "' and 'str'"))
  end.

(** [v.strip()]: only a [str] has the method *)
Definition strip (v : json) : result str :=
  match v with
  | JStr s => Ok (PyStr.strip s)
  | _ => Raise (Exn AttributeError
                  (lit "'" ++ type_name v ++ lit "' object has no attribute 'strip'"))
  end.

End Py.

(** ** The world outside the module *)

(** What the module calls and does not define. [W] is the state of the
    remote inference service, which a call may change. *)
Record env (W : Type) : Type := Env {
  (** [self.model_id], read from the process environment at start *)
  model_id : str;
  (** [json.loads(self.bedrock_client.invoke_model(modelId=..., body=
      json.dumps(request_body))['body'].read())]: the decoded reply to a
      request, or the exception the call, the read or the decoding raises *)
  invoke_model : str -> json -> W -> result json * W;
  (** [fitz.open(stream=..., filetype="pdf")] and, for each page in page
      order, [page.get_text()] *)
  fitz_open : list Byte.byte -> result (list (result str));
  (** [base64.b64encode(...).decode('utf-8')] *)
  b64encode : list Byte.byte -> str;
  (** [json.loads] on a string *)
  json_loads : str -> result json;
  (** [str.lower] *)
  lower : str -> str;
  (** [format(v)] of a value that is not a string, inside an f-string *)
  py_repr : json -> str;
  (** what slicing a dict raises in the running interpreter *)
  dict_slice : exn
}.

(** ** Computations *)

(** The state a computation runs in: the remote service and the bodies of
    the requests sent to it so far, oldest first. *)
Record state (W : Type) : Type := State { service : W; sent : list json }.

Definition M (W A : Type) : Type := state W -> result A * state W.

Definition ret {W A} (a : A) : M W A := fun st => (Ok a, st).

Definition bind {W A B} (m : M W A) (k : A -> M W B) : M W B :=
  fun st =>
    match m st with
    | (Ok a, st') => k a st'
    | (Raise e, st') => (Raise e, st')
    end.

Definition lift {W A} (r : result A) : M W A := fun st => (r, st).

(** [try: body / except Exception as e: handler] *)
Definition try_except {W A} (body : M W A) (handler : exn -> M W A) : M W A :=
  fun st =>
    match body st with
    | (Ok a, st') => (Ok a, st')
    | (Raise e, st') => handler e st'
    end.

(** [try: body / except C as e: handler] for the exceptions [catches] holds of *)
Definition try_except_on {W A} (catches : exn -> bool)
    (body : M W A) (handler : exn -> M W A) : M W A :=
  fun st =>
    match body st with
    | (Ok a, st') => (Ok a, st')
    | (Raise e, st') => if catches e then handler e st' else (Raise e, st')
    end.

Notation "x <- m ;; k" := (bind m (fun x => k))
  (at level 61, m at next level, right associativity) : py_scope.

(** ** The prompts *)

(** The instruction sent with an image ([extract_text_from_image]). *)
Definition vision_prompt : str := lit
"Analyze this receipt/invoice image and extract all visible text and information. 
            Focus on:
            - Product/item names
            - Prices and amounts
            - Dates
            - Store/vendor information
            - Model numbers or serial numbers
            - Warranty information
            
            Provide all extracted text clearly formatted.".

(** The f-string of [parse_receipt_text] before and after its one field. *)
Definition structuring_prompt_head : str := lit_sub
"You are an expert at analyzing receipts and invoices to extract product information. Analyze this text and extract the following information in JSON format:

REQUIRED FIELDS:
- item_name: The main product/item name (exactly as written)
- price: The total amount paid (just the number, no currency symbols)
- date: The purchase/invoice date (convert to DD.MM.YYYY format)
- vendor: The store/company/brand name
- model_number: Product model, SKU, or part number (null if not found)
- description: Brief product description
- category: Product category (see categories below)

CATEGORY DETECTION RULES:
Analyze the item name, vendor, and product details to determine the most appropriate category:

^Electronics^ - for: phones, computers, tablets, headphones, earbuds, speakers, cameras, gaming devices, smart watches, chargers, cables, TV, monitors, keyboards, mice, electronic accessories
Examples: iPhone, AirPods, MacBook, Samsung Galaxy, PlayStation, Xbox, Apple Watch, wireless charger

^Home Appliances^ - for: kitchen appliances, washing machines, refrigerators, microwaves, air conditioners, vacuum cleaners, small home devices
Examples: coffee maker, blender, dishwasher, iron, hair dryer, toaster

^Vehicles^ - for: cars, motorcycles, bicycles, car parts, automotive accessories
Examples: Toyota Camry, Honda bike, car tires, brake pads

^Furniture^ - for: chairs, tables, beds, sofas, storage furniture, office furniture
Examples: dining table, office chair, bookshelf, mattress

^Tools & Equipment^ - for: power tools, hand tools, machinery, construction equipment, workshop items
Examples: drill, hammer, saw, toolbox, generator

^Jewelry^ - for: rings, necklaces, watches (non-smart), precious metals, gems
Examples: gold ring, diamond necklace, luxury watch

^Art & Collectibles^ - for: paintings, sculptures, collectible items, antiques, art supplies
Examples: artwork, vintage items, collectible cards

^Sports & Recreation^ - for: sports equipment, gym gear, outdoor gear, games, recreational items
Examples: tennis racket, dumbbells, camping gear, board games

^Other^ - for items that don't fit the above categories

IMPORTANT: 
- Look at product names like ^AirPods^, ^iPhone^, ^MacBook^ | clearly ^Electronics^
- Look at vendor names like ^Apple^, ^Samsung^, ^Sony^ | likely ^Electronics^ 
- Be intelligent about categorization based on product context
- Always choose the most specific and appropriate category

Text to analyze:
".

Definition structuring_prompt_tail : str := lit
"

Return ONLY valid JSON format with all required fields. No explanations or extra text.".

(** ** SimpleBedrockReceiptParser *)

(** The test ['output' in response_body and 'message' in
    response_body['output']]. *)
Definition nova_format (response_body : json) : result bool :=
  has_output <~ Py.contains "output" response_body ;;
  if has_output : bool then
    output <~ Py.getitem response_body "output" ;;
    Py.contains "message" output
  else Ok false.

(** [response_body['output']['message']['content'][0]['text']] *)
Definition nova_text (response_body : json) : result json :=
  output <~ Py.getitem response_body "output" ;;
  message <~ Py.getitem output "message" ;;
  content <~ Py.getitem message "content" ;;
  first <~ Py.getitem0 content ;;
  Py.getitem first "text".

(** The request of [extract_text_from_image]. *)
Definition vision_request (image_base64 mime_type : str) : json :=
  JObj [
    (lit "messages", JArr [
      JObj [
        (lit "role", JStr "user");
        (lit "content", JArr [
          JObj [ (lit "text", JStr vision_prompt) ];
          JObj [ (lit "image", JObj [
            (lit "format",
               JStr (if PyStr.contains mime_type "/"
                     then split_last 47 mime_type else "png"));
            (lit "source", JObj [ (lit "bytes", JStr image_base64) ]) ]) ] ]) ] ]);
    (lit "inferenceConfig", JObj [
      (lit "maxTokens", JInt 4000);
      (lit "temperature", JFloat 0.1%float) ]) ].

(** The request of [parse_receipt_text]. *)
Definition structuring_request (prompt : str) : json :=
  JObj [
    (lit "messages", JArr [
      JObj [
        (lit "role", JStr "user");
        (lit "content", JArr [ JObj [ (lit "text", JStr prompt) ] ]) ] ]);
    (lit "inferenceConfig", JObj [
      (lit "maxTokens", JInt 1000);
      (lit "temperature", JFloat 0.1%float) ]) ].

(** Lines 213-217: the stripped reply without its code fence. *)
Definition clean_fences (clean_response : str) : str :=
  let clean_response :=
    if startswith clean_response "```json"
    then slice_from 7 clean_response else clean_response in
  let clean_response :=
    if endswith clean_response "```"
    then slice_to_neg 3 clean_response else clean_response in
  PyStr.strip clean_response.

(** The dict of [_create_fallback_response]. *)
Definition fallback_record : json :=
  JObj [
    (lit "item_name", JStr "Unable to extract");
    (lit "price", JInt 0);
    (lit "date", JStr "");
    (lit "vendor", JStr "Unable to extract");
    (lit "warranty_period", JNull);
    (lit "model_number", JNull);
    (lit "description", JStr "Manual entry required");
    (lit "category", JStr "Other") ].

(** The envelope of a failure. *)
Definition failure (error : str) (data : json) : json :=
  JObj [ (lit "success", JBool false);
         (lit "error", JStr error);
         (lit "data", data) ].

(** The envelope of a success. *)
Definition success (preview structured_data : json) : json :=
  JObj [ (lit "success", JBool true);
         (lit "extracted_text", preview);
         (lit "data", structured_data) ].

Section Parser.

Variable W : Type.
Variable E : env W.

#[local] Abbreviation M := (M W).

(** [self.bedrock_client.invoke_model(...)] followed by the decoding of the
    reply body: one request leaves the process, and is recorded. *)
Definition invoke (request_body : json) : M json :=
  fun st =>
    let (r, w) := invoke_model E (model_id E) request_body (service st) in
    (r, State w (sent st ++ [request_body])).

(** The loop [for page in doc: text += page.get_text()]. *)
Fixpoint pdf_pages_text (pages : list (result str)) (text : str) : result str :=
  match pages with
  | [] => Ok text
  | page :: rest =>
      page_text <~ page ;;
      pdf_pages_text rest (text ++ page_text)
  end.

Definition extract_text_from_pdf (pdf_bytes : list Byte.byte) : M json :=
  try_except
    (doc <- lift (fitz_open E pdf_bytes) ;;
     text <- lift (pdf_pages_text doc "") ;;
     ret (JStr text))
    (fun e => ret (JStr "")).

Definition extract_text_from_image
    (image_bytes : list Byte.byte) (mime_type : str) : M json :=
  try_except
    (let image_base64 := b64encode E image_bytes in
     let request_body := vision_request image_base64 mime_type in
     response_body <- invoke request_body ;;
     nova <- lift (nova_format response_body) ;;
     if nova : bool then lift (nova_text response_body)
     else ret (JStr "Could not extract text from image"))
    (fun e => ret (JStr "")).

Definition _create_fallback_response : M json := ret fallback_record.

(** [format()] of the field of an f-string. *)
Definition format_field (v : json) : str :=
  match v with
  | JStr s => s
  | _ => py_repr E v
  end.

(** The prompt of [parse_receipt_text] around [extracted_text[:3000]]. *)
Definition structuring_prompt (text_head : json) : str :=
  structuring_prompt_head ++ format_field text_head ++ structuring_prompt_tail.

(** Lines 210-226: the inner [try] of [parse_receipt_text]. *)
Definition decode_reply (ai_response : json) : M json :=
  try_except_on is_JSONDecodeError
    (clean_response <- lift (Py.strip ai_response) ;;
     let clean_response := clean_fences clean_response in
     parsed_data <- lift (json_loads E clean_response) ;;
     ret parsed_data)
    (fun e => _create_fallback_response).

Definition parse_receipt_text (extracted_text : json) : M json :=
  try_except
    (text_head <- lift (Py.slice_to (dict_slice E) 3000 extracted_text) ;;
     let prompt := structuring_prompt text_head in
     let request_body := structuring_request prompt in
     response_body <- invoke request_body ;;
     nova <- lift (nova_format response_body) ;;
     if nova : bool then
       ai_response <- lift (nova_text response_body) ;;
       decode_reply ai_response
     else _create_fallback_response)
    (fun e => _create_fallback_response).

(** The value of [extracted_text[:500] + "..." if len(extracted_text) > 500
    else extracted_text]. *)
Definition text_preview (extracted_text : json) : result json :=
  n <~ Py.len extracted_text ;;
  if Nat.ltb 500 n then
    text_head <~ Py.slice_to (dict_slice E) 500 extracted_text ;;
    Py.add_str text_head "..."
  else Ok extracted_text.

(** Lines 268-283 of [parse_receipt]: what follows the choice of an
    extraction strategy. *)
Definition parse_extracted (extracted_text : json) : M json :=
  if negb (Py.truthy extracted_text) then
    data <- _create_fallback_response ;;
    ret (failure "No text could be extracted from the file" data)
  else
    structured_data <- parse_receipt_text extracted_text ;;
    preview <- lift (text_preview extracted_text) ;;
    ret (success preview structured_data).

(** The test of line 253. *)
Definition is_pdf (filename content_type : str) : bool :=
  PyStr.eqb content_type "application/pdf"
  || endswith (lower E filename) ".pdf".

(** The test of line 257. *)
Definition is_image (filename content_type : str) : bool :=
  startswith content_type "image/"
  || endswith_any (lower E filename)
       [lit ".png"; lit ".jpg"; lit ".jpeg"; lit ".gif"; lit ".bmp"].

(** The [try] block of [parse_receipt]. *)
Definition parse_receipt_try
    (file_content : list Byte.byte) (filename content_type : str) : M json :=
  if is_pdf filename content_type then
    extracted_text <- extract_text_from_pdf file_content ;;
    parse_extracted extracted_text
  else if is_image filename content_type then
    extracted_text <- extract_text_from_image file_content content_type ;;
    parse_extracted extracted_text
  else
    data <- _create_fallback_response ;;
    ret (failure (lit "Unsupported file type: " ++ content_type) data).

Definition parse_receipt
    (file_content : list Byte.byte) (filename content_type : str) : M json :=
  try_except
    (parse_receipt_try file_content filename content_type)
    (fun e =>
       data <- _create_fallback_response ;;
       ret (failure (exn_str e) data)).

End Parser.

(** ** A concrete world for the examples *)

Module Fixture.

(** A decoder for the JSON texts the examples use: objects, arrays, strings
    without escape sequences, integers, [true], [false] and [null], with
    JSON's white space. On these texts it returns what [json.loads] returns,
    and it rejects, as [json.loads] does, a text that does not start with a
    JSON value or that continues after one. Fractions, exponents and escape
    sequences are outside of it. *)
Definition json_ws (c : N) : bool :=
  ((c =? 32) || (c =? 9) || (c =? 10) || (c =? 13))%N.

Fixpoint skip_ws (s : str) : str :=
  match s with
  | c :: s' => if json_ws c then skip_ws s' else s
  | [] => []
  end.

(** The characters up to the closing quote, and what follows it. *)
Fixpoint scan_string (s acc : str) : option (str * str) :=
  match s with
  | [] => None
  | c :: s' =>
      if (c =? 34)%N then Some (rev acc, s')
      else if ((c =? 92) || (c <? 32))%N then None
      else scan_string s' (c :: acc)
  end.

Definition is_digit (c : N) : bool := ((48 <=? c) && (c <=? 57))%N.

Fixpoint scan_digits (s : str) (acc : Z) : Z * str :=
  match s with
  | c :: s' =>
      if is_digit c then scan_digits s' (acc * 10 + Z.of_N (c - 48))
      else (acc, s)
  | [] => (acc, [])
  end.

(** An integer without sign: [0], or digits that do not start with [0];
    nothing when a fraction or an exponent follows. *)
Definition scan_int (s : str) : option (Z * str) :=
  match s with
  | c :: s' =>
      if is_digit c then
        let (z, r) := if (c =? 48)%N then (0%Z, s') else scan_digits s 0 in
        match r with
        | d :: _ => if ((d =? 46) || (d =? 101) || (d =? 69))%N
                    then None else Some (z, r)
        | [] => Some (z, r)
        end
      else None
  | [] => None
  end.

(** [d[k] = v] *)
Fixpoint set_item (k : str) (v : json) (kv : list (str * json))
    : list (str * json) :=
  match kv with
  | [] => [(k, v)]
  | (k', v') :: kv' =>
      if PyStr.eqb k k' then (k', v) :: kv' else (k', v') :: set_item k v kv'
  end.

Fixpoint value (fuel : nat) (s : str) {struct fuel} : option (json * str) :=
  match fuel with
  | O => None
  | S n =>
      match skip_ws s with
      | [] => None
      | c :: r =>
          if (c =? 123)%N then
            match skip_ws r with
            | c' :: r' =>
                if (c' =? 125)%N then Some (JObj [], r') else members n [] r
            | [] => None
            end
          else if (c =? 91)%N then
            match skip_ws r with
            | c' :: r' =>
                if (c' =? 93)%N then Some (JArr [], r') else elements n [] r
            | [] => None
            end
          else if (c =? 34)%N then
            match scan_string r [] with
            | Some (x, r') => Some (JStr x, r')
            | None => None
            end
          else if startswith (c :: r) "true" then Some (JBool true, skipn 3 r)
          else if startswith (c :: r) "false" then Some (JBool false, skipn 4 r)
          else if startswith (c :: r) "null" then Some (JNull, skipn 3 r)
          else if (c =? 45)%N then
            match scan_int r with
            | Some (z, r') => Some (JInt (- z), r')
            | None => None
            end
          else
            match scan_int (c :: r) with
            | Some (z, r') => Some (JInt z, r')
            | None => None
            end
      end
  end

with members (fuel : nat) (acc : list (str * json)) (s : str) {struct fuel}
    : option (json * str) :=
  match fuel with
  | O => None
  | S n =>
      match skip_ws s with
      | c :: r =>
          if (c =? 34)%N then
            match scan_string r [] with
            | Some (k, r1) =>
                match skip_ws r1 with
                | c1 :: r2 =>
                    if (c1 =? 58)%N then
                      match value n r2 with
                      | Some (v, r3) =>
                          match skip_ws r3 with
                          | c3 :: r4 =>
                              if (c3 =? 44)%N then members n (set_item k v acc) r4
                              else if (c3 =? 125)%N
                                   then Some (JObj (set_item k v acc), r4)
                                   else None
                          | [] => None
                          end
                      | None => None
                      end
                    else None
                | [] => None
                end
            | None => None
            end
          else None
      | [] => None
      end
  end

with elements (fuel : nat) (acc : list json) (s : str) {struct fuel}
    : option (json * str) :=
  match fuel with
  | O => None
  | S n =>
      match value n s with
      | Some (v, r) =>
          match skip_ws r with
          | c :: r' =>
              if (c =? 44)%N then elements n (acc ++ [v]) r'
              else if (c =? 93)%N then Some (JArr (acc ++ [v]), r')
              else None
          | [] => None
          end
      | None => None
      end
  end.

Definition decode_error : exn := Exn JSONDecodeError "Expecting value".

Definition loads (s : str) : result json :=
  match value (S (List.length s)) s with
  | Some (v, r) =>
      match skip_ws r with
      | [] => Ok v
      | _ :: _ => Raise decode_error
      end
  | None => Raise decode_error
  end.

(** [str.lower] on ASCII text. *)
Definition ascii_lower (s : str) : str :=
  map (fun c => if ((65 <=? c) && (c <=? 90))%N then (c + 32)%N else c) s.

(** The reply of the inference service that carries [text] as the first
    segment of its message. *)
Definition nova_reply (text : json) : json :=
  JObj [ (lit "output", JObj [
           (lit "message", JObj [
              (lit "role", JStr "assistant");
              (lit "content", JArr [ JObj [ (lit "text", text) ] ]) ]) ]);
         (lit "stopReason", JStr "end_turn") ].

(** [request_body['inferenceConfig']['maxTokens']], which tells the two
    requests of the module apart. *)
Definition max_tokens (request_body : json) : result json :=
  config <~ Py.getitem request_body "inferenceConfig" ;;
  Py.getitem config "maxTokens".

Definition is_vision (request_body : json) : bool :=
  match max_tokens request_body with
  | Ok (JInt 4000) => true
  | _ => false
  end.

(** A service that answers an image request with [vision] and any other
    request with [structuring], and counts the requests it has served. *)
Definition serve (vision structuring : result json)
    : str -> json -> nat -> result json * nat :=
  fun _ request_body served =>
    (if is_vision request_body then vision else structuring, S served).

(** The first eight bytes of a PNG file, and their base64 text. *)
Definition png_bytes : list Byte.byte :=
  [Byte.x89; Byte.x50; Byte.x4e; Byte.x47; Byte.x0d; Byte.x0a; Byte.x1a; Byte.x0a].

Definition png_base64 : str := "iVBORw0KGgo=".

(** The world of an example: PyMuPDF opens every file as [doc], the service
    is [serve vision structuring], and the interpreter is CPython 3.11.
    [b64encode] is right on [png_bytes], the only bytes the examples encode,
    and [py_repr] on the empty list; no example formats a list. *)
Definition world (doc : result (list (result str)))
    (vision structuring : result json) : env nat :=
  {| model_id := "amazon.nova-lite-v1:0";
     invoke_model := serve vision structuring;
     fitz_open := fun _ => doc;
     b64encode := fun _ => png_base64;
     json_loads := loads;
     lower := ascii_lower;
     py_repr := fun _ => "[]";
     dict_slice := Py.type_error "unhashable type: 'slice'" |}.

Definition start : state nat := State 0 [].

(** A PDF whose one page holds the text of a receipt, and a service whose
    structuring reply carries [reply_text]. *)
Definition receipt_text : str := "STORE A / Widget / $19.99 / 2024-01-05".

Definition pdf_world (page_text : str) (structuring : result json) : env nat :=
  world (Ok [Ok page_text]) (Raise (Exn OtherException "no image expected"))
    structuring.

(** A reply in a fence with the tag [json], one in a fence without tag, and
    the object inside both. *)
Definition widget_text : str := lit_sub "{^item_name^: ^Widget^}".

Definition widget : json := JObj [ (lit "item_name", JStr "Widget") ].

Definition tagged_fence_reply : str := lit_sub "```json
{^item_name^: ^Widget^}
```".

Definition plain_fence_reply : str := lit_sub "```
{^item_name^: ^Widget^}
```".

(** A reply whose category is not one of the prompt's. *)
Definition gadget_text : str := lit_sub "{^item_name^: ^Widget^, ^category^: ^Gadgets^}".

Definition gadget : json :=
  JObj [ (lit "item_name", JStr "Widget"); (lit "category", JStr "Gadgets") ].

(** What the client raises when the service cannot be reached. *)
Definition unreachable : exn :=
  Exn OtherException "Could not connect to the endpoint URL".


End Fixture.

(** ** Vocabulary of the properties *)

Section Outcomes.

Variable W : Type.
Variable E : env W.

(** The text [extract_text_from_pdf] returns: the text of the pages, or the
    empty string when PyMuPDF raises. *)
Definition pdf_text (pdf_bytes : list Byte.byte) : str :=
  match doc <~ fitz_open E pdf_bytes ;; pdf_pages_text doc "" with
  | Ok text => text
  | Raise _ => ""
  end.

(** What [extract_text_from_image] returns when the service answers
    [reply]. *)
Definition vision_outcome (reply : result json) : json :=
  match
    response_body <~ reply ;;
    nova <~ nova_format response_body ;;
    if nova : bool then nova_text response_body
    else Ok (JStr "Could not extract text from image")
  with
  | Ok extracted_text => extracted_text
  | Raise _ => JStr ""
  end.

(** What [parse_receipt_text] returns when the service answers [reply]. *)
Definition structuring_outcome (reply : result json) : json :=
  match
    response_body <~ reply ;;
    nova <~ nova_format response_body ;;
    if nova : bool then
      ai_response <~ nova_text response_body ;;
      clean_response <~ Py.strip ai_response ;;
      json_loads E (clean_fences clean_response)
    else Ok fallback_record
  with
  | Ok parsed_data => parsed_data
  | Raise _ => fallback_record
  end.

(** The input is given to an extraction strategy, which returns
    [extracted_text] and leaves the state [st']. *)
Definition extracts (file_content : list Byte.byte) (filename content_type : str)
    (st : state W) (extracted_text : json) (st' : state W) : Prop :=
  (is_pdf E filename content_type = true /\
   extract_text_from_pdf E file_content st = (Ok extracted_text, st')) \/
  (is_pdf E filename content_type = false /\
   is_image E filename content_type = true /\
   extract_text_from_image E file_content content_type st
     = (Ok extracted_text, st')).

(** The service is deterministic: its reply is a function of the request. *)
Definition deterministic : Prop :=
  forall model request_body w1 w2,
    fst (invoke_model E model request_body w1)
    = fst (invoke_model E model request_body w2).

End Outcomes.

(** The result of a computation does not depend on the state it starts in. *)
Definition stateless {W A} (m : M W A) : Prop :=
  forall st1 st2, fst (m st1) = fst (m st2).

(** The nine categories of the prompt. *)
Definition categories : list str :=
  [ lit "Electronics"; lit "Home Appliances"; lit "Vehicles"; lit "Furniture";
    lit "Tools & Equipment"; lit "Jewelry"; lit "Art & Collectibles";
    lit "Sports & Recreation"; lit "Other" ].

(** [data['category']] is one of the nine. *)
Definition category_listed (data : json) : bool :=
  match Py.getitem data "category" with
  | Ok (JStr c) => existsb (PyStr.eqb c) categories
  | _ => false
  end.

(** ** Vocabulary of code fences *)

(** White space only. *)
Definition blank (s : str) : bool := forallb isspace s.

(** A text between two characters that are not white space. *)
Definition framed (x : N) (m : str) (y : N) : str := x :: m ++ [y].

(** The reply [a], up to white space: an optional opening fence, a text,
    an optional closing fence. *)
Definition fenced (lead trail : bool) (ws3 body ws4 : str) : str :=
  (if lead then lit "```json" else []) ++ ws3 ++ body ++ ws4
  ++ (if trail then lit "```" else []).

(** ** Vocabulary of the further properties *)

(** Reading a value that was built: the entry [k] of a dict and the element
    [i] of a list. *)
Definition field (k : str) (v : json) : option json :=
  match v with
  | JObj kv => Py.lookup k kv
  | _ => None
  end.

Definition item (i : nat) (v : json) : option json :=
  match v with
  | JArr l => nth_error l i
  | _ => None
  end.

Definition and_also {A B} (o : option A) (k : A -> option B) : option B :=
  match o with
  | Some a => k a
  | None => None
  end.

(** [request_body['messages'][0]['content'][1]['image']['format']]: the
    format a request declares for its image. *)
Definition image_format (request_body : json) : option json :=
  and_also (field "messages" request_body) (fun messages =>
  and_also (item 0 messages) (fun message =>
  and_also (field "content" message) (fun content =>
  and_also (item 1 content) (fun part =>
  and_also (field "image" part) (fun image =>
  field "format" image))))).

(** [request_body['messages'][0]['content'][0]['text']]: the prompt of a
    request. *)
Definition request_prompt (request_body : json) : option json :=
  and_also (field "messages" request_body) (fun messages =>
  and_also (item 0 messages) (fun message =>
  and_also (field "content" message) (fun content =>
  and_also (item 0 content) (fun part =>
  field "text" part)))).

(** The keys of a dict, in order. *)
Definition keys (v : json) : list str :=
  match v with
  | JObj kv => map fst kv
  | _ => []
  end.

(** The requests a step adds to the log: at most [n], all structuring
    requests. *)
Definition adds_structuring {W} (n : nat) (st st' : state W) : Prop :=
  exists new,
    sent st' = sent st ++ new /\ List.length new <= n /\
    forall r, In r new -> exists prompt, r = structuring_request prompt.

(** ** The HTTP layer *)

(** What [simple_main.py], [vercel_main.py] and [api/index.py] call and do
    not define. *)
Record host (W : Type) : Type := Host {
  (** [SimpleBedrockReceiptParser()] at its n-th call in the process: the
      parser, or the exception the constructor raises *)
  new_parser : nat -> result (env W);
  (** the body [JSONResponse(content=...)] renders, or the exception the
      rendering raises *)
  render : json -> result str
}.

Record builtins : Type := Builtins {
  (** [json.dumps] on the dicts the handlers build *)
  json_dumps : json -> str;
  (** [str.lower] *)
  str_lower : str -> str;
  (** [str.upper] *)
  str_upper : str -> str
}.

(** The globals of a process: [receipt_parser], and how many times the
    constructor of the parser has been called. *)
Record process (W : Type) : Type :=
  Process { receipt_parser : option (env W); constructions : nat }.

(** How a function of the HTTP layer ends: it returns, it raises an
    [HTTPException], or it raises another exception. *)
Inductive outcome (A : Type) : Type :=
| Return (a : A)
| RaiseHTTP (status_code : Z) (detail : str)
| RaiseOther (e : exn).
Arguments Return {A} a.
Arguments RaiseHTTP {A} status_code detail.
Arguments RaiseOther {A} e.

(** [except HTTPException: raise] followed by [except Exception as e: raise
    HTTPException(status_code=500, detail=prefix + str(e))]. *)
Definition reraise_as_500 {A} (prefix : str) (o : outcome A) : outcome A :=
  match o with
  | RaiseOther e => RaiseHTTP 500 (prefix ++ exn_str e)
  | _ => o
  end.

(** A [JSONResponse]: its status and the body it rendered. *)
Record JSONResponse : Type :=
  Response { status_code : Z; body : str }.

(** An [UploadFile]: its name (a string, as the signature of the parser
    asks), its content type if the part declares one, and what [await
    file.read()] gives. *)
Record UploadFile : Type := Upload {
  filename : str;
  content_type : option str;
  read : result (list Byte.byte)
}.

Module PyMore.

(** [d.get(k, default)] *)
Definition get (v : json) (k : str) (default : json) : result json :=
  match v with
  | JObj kv =>
      Ok (match Py.lookup k kv with Some x => x | None => default end)
  | _ => Raise (Exn AttributeError
                  (lit "'" ++ Py.type_name v ++ lit "' object has no attribute 'get'"))
  end.

(** [v.lower()] and [v.upper()]: only a [str] has the methods *)
Definition case_method (name : str) (convert : str -> str) (v : json)
    : result str :=
  match v with
  | JStr s => Ok (convert s)
  | _ => Raise (Exn AttributeError
                  (lit "'" ++ Py.type_name v ++ lit "' object has no attribute '"
                   ++ name ++ lit "'"))
  end.

(** [format()] of a value that is a string or [None] *)
Definition format_optional (v : option str) : str :=
  match v with
  | Some s => s
  | None => "None"
  end.

(** [x] for a string or [None] inside a dict *)
Definition optional (v : option str) : json :=
  match v with
  | Some s => JStr s
  | None => JNull
  end.

(** [repr] of a list of strings that need no escape *)
Fixpoint repr_items (l : list str) : str :=
  match l with
  | [] => []
  | [s] => lit "'" ++ s ++ lit "'"
  | s :: l' => lit "'" ++ s ++ lit "', " ++ repr_items l'
  end.

Definition repr_list (l : list str) : str := lit "[" ++ repr_items l ++ lit "]".

End PyMore.

(** *** simple_main.py *)

Module SimpleMain.

Section App.

Variable W : Type.
Variable H : host W.

Definition get_receipt_parser (p : process W) : outcome (env W) * process W :=
  match receipt_parser p with
  | None =>
      match new_parser H (constructions p) with
      | Ok parser =>
          (Return parser, Process (Some parser) (S (constructions p)))
      | Raise e =>
          (RaiseHTTP 500
             (lit "Receipt parser initialization failed: " ++ exn_str e),
           Process None (S (constructions p)))
      end
  | Some parser => (Return parser, p)
  end.

(** [startup_event]: the exception of [get_receipt_parser] is logged and
    dropped. *)
Definition startup_event (p : process W) : process W :=
  snd (get_receipt_parser p).

Definition allowed_types : list str :=
  [ lit "application/pdf";
    lit "image/jpeg"; lit "image/jpg"; lit "image/png"; lit "image/gif";
    lit "image/bmp"; lit "image/tiff"; lit "image/webp" ].

(** The [detail] of line 121. *)
Definition unsupported (ct : option str) : str :=
  lit "Unsupported file type: " ++ PyMore.format_optional ct
  ++ lit ". Supported types: " ++ PyMore.repr_list allowed_types.

(** The dict of lines 137-148. *)
Definition response (document_type extracted_data : json) (file : UploadFile)
    (file_content : list Byte.byte) (now : str) : json :=
  JObj [
    (lit "success", JBool true);
    (lit "document_type", document_type);
    (lit "extracted_data", extracted_data);
    (lit "file_info", JObj [
       (lit "filename", JStr (filename file));
       (lit "content_type", PyMore.optional (content_type file));
       (lit "file_size", JInt (Z.of_nat (List.length file_content))) ]);
    (lit "processed_at", JStr now);
    (lit "message",
     JStr "Data extracted successfully. Ready for UI form filling.") ].

(** Lines 124-151 of the endpoint [parse_receipt]: what follows the check of
    the content type [ct]. [now] is what [datetime.utcnow().isoformat()]
    gives at line 146. *)
Definition parse_receipt_allowed (file : UploadFile) (ct now : str)
    (p : process W) (st : state W)
    : outcome JSONResponse * process W * state W :=
  match read file with
  | Raise e => (RaiseOther e, p, st)
  | Ok file_content =>
      if Nat.eqb (List.length file_content) 0 then
        (RaiseHTTP 400 "Empty file", p, st)
      else
        match get_receipt_parser p with
        | (RaiseHTTP status detail, p') => (RaiseHTTP status detail, p', st)
        | (RaiseOther e, p') => (RaiseOther e, p', st)
        | (Return parser, p') =>
            match parse_receipt parser file_content (filename file) ct st with
            | (Raise e, st') => (RaiseOther e, p', st')
            | (Ok extracted_data, st') =>
                match
                  document_type <~
                    PyMore.get extracted_data "document_type" (JStr "receipt") ;;
                  render H (response document_type extracted_data file
                              file_content now)
                with
                | Ok rendered => (Return (Response 200 rendered), p', st')
                | Raise e => (RaiseOther e, p', st')
                end
            end
        end
  end.

(** The [try] block of the endpoint [parse_receipt]: the check [if
    file.content_type not in allowed_types], for a content type that is a
    string or [None], and what follows it. *)
Definition parse_receipt_try (file : UploadFile) (now : str)
    (p : process W) (st : state W)
    : outcome JSONResponse * process W * state W :=
  match content_type file with
  | Some ct =>
      if negb (existsb (PyStr.eqb ct) allowed_types) then
        (RaiseHTTP 400 (unsupported (Some ct)), p, st)
      else parse_receipt_allowed file ct now p st
  | None => (RaiseHTTP 400 (unsupported None), p, st)
  end.

(** The endpoint [parse_receipt] of the route [/api/ai/parse-receipt]. *)
Definition parse_receipt (file : UploadFile) (now : str)
    (p : process W) (st : state W)
    : outcome JSONResponse * process W * state W :=
  let '(o, p', st') := parse_receipt_try file now p st in
  (reraise_as_500 "Document processing failed: " o, p', st').

End App.

End SimpleMain.

(** *** vercel_main.py *)

Module VercelMain.

Section App.

Variable W : Type.
Variable H : host W.

Definition get_receipt_parser (p : process W) : outcome (env W) * process W :=
  match receipt_parser p with
  | None =>
      match new_parser H (constructions p) with
      | Ok parser =>
          (Return parser, Process (Some parser) (S (constructions p)))
      | Raise e =>
          (RaiseHTTP 500 (lit "Parser init failed: " ++ exn_str e),
           Process None (S (constructions p)))
      end
  | Some parser => (Return parser, p)
  end.

Definition allowed_types : list str :=
  [ lit "application/pdf";
    lit "image/jpeg"; lit "image/jpg"; lit "image/png"; lit "image/gif";
    lit "image/tiff"; lit "image/webp" ].

(** The [detail] of line 75. *)
Definition unsupported (ct : option str) : str :=
  lit "Unsupported file type: " ++ PyMore.format_optional ct.

(** The dict of lines 89-99. *)
Definition response (document_type extracted_data : json) (file : UploadFile)
    (file_content : list Byte.byte) (now : str) : json :=
  JObj [
    (lit "success", JBool true);
    (lit "document_type", document_type);
    (lit "extracted_data", extracted_data);
    (lit "file_info", JObj [
       (lit "filename", JStr (filename file));
       (lit "content_type", PyMore.optional (content_type file));
       (lit "file_size", JInt (Z.of_nat (List.length file_content))) ]);
    (lit "processed_at", JStr now) ].

(** Lines 78-102 of the endpoint [parse_receipt]: what follows the check of
    the content type [ct]. [now] is what [datetime.utcnow().isoformat()]
    gives at line 98. *)
Definition parse_receipt_allowed (file : UploadFile) (ct now : str)
    (p : process W) (st : state W)
    : outcome JSONResponse * process W * state W :=
  match read file with
  | Raise e => (RaiseOther e, p, st)
  | Ok file_content =>
      if Nat.eqb (List.length file_content) 0 then
        (RaiseHTTP 400 "Empty file", p, st)
      else
        match get_receipt_parser p with
        | (RaiseHTTP status detail, p') => (RaiseHTTP status detail, p', st)
        | (RaiseOther e, p') => (RaiseOther e, p', st)
        | (Return parser, p') =>
            match parse_receipt parser file_content (filename file) ct st with
            | (Raise e, st') => (RaiseOther e, p', st')
            | (Ok extracted_data, st') =>
                match
                  document_type <~
                    PyMore.get extracted_data "document_type" (JStr "receipt") ;;
                  render H (response document_type extracted_data file
                              file_content now)
                with
                | Ok rendered => (Return (Response 200 rendered), p', st')
                | Raise e => (RaiseOther e, p', st')
                end
            end
        end
  end.

(** The [try] block of the endpoint [parse_receipt]: the check [if
    file.content_type not in allowed_types], for a content type that is a
    string or [None], and what follows it. *)
Definition parse_receipt_try (file : UploadFile) (now : str)
    (p : process W) (st : state W)
    : outcome JSONResponse * process W * state W :=
  match content_type file with
  | Some ct =>
      if negb (existsb (PyStr.eqb ct) allowed_types) then
        (RaiseHTTP 400 (unsupported (Some ct)), p, st)
      else parse_receipt_allowed file ct now p st
  | None => (RaiseHTTP 400 (unsupported None), p, st)
  end.

(** The endpoint [parse_receipt] of the route [/python-ai/parse-receipt]. *)
Definition parse_receipt (file : UploadFile) (now : str)
    (p : process W) (st : state W)
    : outcome JSONResponse * process W * state W :=
  let '(o, p', st') := parse_receipt_try file now p st in
  (reraise_as_500 "Processing failed: " o, p', st').

End App.

End VercelMain.

(** *** api/index.py *)

Module ApiIndex.

Section Function.

Variable W : Type.
Variable H : host W.
Variable B : builtins.

(** Whether the import of [SimpleBedrockReceiptParser] succeeded (lines
    12-16): the name is the class, or [None]. *)
Variable imported : bool.

Definition get_receipt_parser (p : process W)
    : option (env W) * process W :=
  match receipt_parser p with
  | None =>
      if imported then
        match new_parser H (constructions p) with
        | Ok parser =>
            (Some parser, Process (Some parser) (S (constructions p)))
        | Raise e => (None, Process None (S (constructions p)))
        end
      else (None, p)
  | Some parser => (Some parser, p)
  end.

(** The dict a branch of [handler] returns. *)
Definition answer (statusCode : Z) (headers : list (str * json)) (body : str)
    : json :=
  JObj [ (lit "statusCode", JInt statusCode);
         (lit "headers", JObj headers);
         (lit "body", JStr body) ].

Definition json_and_any_origin : list (str * json) :=
  [ (lit "Content-Type", JStr "application/json");
    (lit "Access-Control-Allow-Origin", JStr "*") ].

Definition health_body (now : str) : json :=
  JObj [ (lit "status", JStr "healthy");
         (lit "service", JStr "Asset Tracker AI (Vercel Serverless)");
         (lit "timestamp", JStr now);
         (lit "version", JStr "1.0.0");
         (lit "parser_available", JBool imported) ].

(** Lines 46-120: the routes, for a lower-cased path and an upper-cased
    method. [now] is what [datetime.utcnow().isoformat()] gives in the
    branch taken. *)
Definition route (path method now : str) : json :=
  if endswith path "/health" || endswith path "/" then
    answer 200
      [ (lit "Content-Type", JStr "application/json");
        (lit "Access-Control-Allow-Origin", JStr "*");
        (lit "Access-Control-Allow-Methods", JStr "GET, POST, OPTIONS");
        (lit "Access-Control-Allow-Headers", JStr "Content-Type") ]
      (json_dumps B (health_body now))
  else if PyStr.eqb method "OPTIONS" then
    answer 200
      [ (lit "Access-Control-Allow-Origin", JStr "*");
        (lit "Access-Control-Allow-Methods", JStr "GET, POST, OPTIONS");
        (lit "Access-Control-Allow-Headers", JStr "Content-Type") ]
      ""
  else if endswith path "/parse-receipt" && PyStr.eqb method "POST" then
    if negb imported then
      answer 500 json_and_any_origin
        (json_dumps B (JObj [
           (lit "success", JBool false);
           (lit "error", JStr "Receipt parser not available");
           (lit "message",
            JStr "SimpleBedrockReceiptParser could not be imported") ]))
    else
      answer 200 json_and_any_origin
        (json_dumps B (JObj [
           (lit "success", JBool true);
           (lit "message",
            JStr "AI service is available but file upload needs to be handled by main backend");
           (lit "timestamp", JStr now);
           (lit "recommended_approach",
            JStr "Use Node.js backend to handle file uploads and call AWS Bedrock directly") ]))
  else
    answer 404 json_and_any_origin
      (json_dumps B (JObj [
         (lit "error", JStr "Not Found");
         (lit "available_endpoints",
          JArr [ JStr "/health"; JStr "/parse-receipt" ]);
         (lit "timestamp", JStr now) ])).

(** The [try] block of [handler]. *)
Definition handler_try (request : json) (now : str) : result json :=
  path <~ (path <~ PyMore.get request "path" (JStr "/") ;;
           PyMore.case_method "lower" (str_lower B) path) ;;
  method <~ (method <~ PyMore.get request "method" (JStr "GET") ;;
             PyMore.case_method "upper" (str_upper B) method) ;;
  Ok (route path method now).

Definition handler (request : json) (now : str) : json :=
  match handler_try request now with
  | Ok r => r
  | Raise e =>
      answer 500 json_and_any_origin
        (json_dumps B (JObj [
           (lit "success", JBool false);
           (lit "error", JStr (exn_str e));
           (lit "timestamp", JStr now) ]))
  end.

End Function.

End ApiIndex.

(** ** A concrete HTTP layer for the examples *)

Module HttpFixture.

(** The decimal digits of a natural number. *)
Fixpoint digits (fuel : nat) (n : N) (acc : str) : str :=
  match fuel with
  | O => acc
  | S fuel' =>
      let acc' := (48 + n mod 10)%N :: acc in
      if (n / 10 =? 0)%N then acc' else digits fuel' (n / 10)%N acc'
  end.

Definition decimal (z : Z) : str :=
  let n := Z.abs_N z in
  (if (z <? 0)%Z then lit "-" else []) ++ digits (S (N.to_nat (N.log2 n))) n [].

(** A string between double quotes, when it needs no escape. *)
Definition quoted (s : str) : option str :=
  if forallb (fun c => (32 <=? c) && (c <=? 126) && negb (c =? 34)
                       && negb (c =? 92))%N s
  then Some ([dquote] ++ s ++ [dquote]) else None.

(** A serialiser for the values the examples send: [None], booleans,
    integers, strings that need no escape, lists and dicts of these, with
    the separators given. On these values it writes what [json.dumps]
    writes with the same separators. Floats are outside of it. *)
Fixpoint serialize (comma colon : str) (v : json) {struct v} : option str :=
  match v with
  | JNull => Some (lit "null")
  | JBool true => Some (lit "true")
  | JBool false => Some (lit "false")
  | JInt z => Some (decimal z)
  | JFloat _ => None
  | JStr s => quoted s
  | JArr l =>
      let fix items (l : list json) : option str :=
        match l with
        | [] => Some []
        | x :: l' =>
            match serialize comma colon x, items l' with
            | Some sx, Some sl =>
                Some (sx ++ match l' with [] => [] | _ => comma end ++ sl)
            | _, _ => None
            end
        end in
      match items l with
      | Some s => Some (lit "[" ++ s ++ lit "]")
      | None => None
      end
  | JObj kv =>
      let fix entries (kv : list (str * json)) : option str :=
        match kv with
        | [] => Some []
        | (k, x) :: kv' =>
            match quoted k, serialize comma colon x, entries kv' with
            | Some sk, Some sx, Some sl =>
                Some (sk ++ colon ++ sx
                      ++ match kv' with [] => [] | _ => comma end ++ sl)
            | _, _, _ => None
            end
        end in
      match entries kv with
      | Some s => Some (lit "{" ++ s ++ lit "}")
      | None => None
      end
  end.

Definition not_serializable : exn :=
  Exn OtherException "Object is not JSON serializable".

(** [JSONResponse] renders with the separators [","] and [":"]. *)
Definition render_compact (content : json) : result str :=
  match serialize "," ":" content with
  | Some s => Ok s
  | None => Raise not_serializable
  end.

(** [json.dumps] writes with the separators [", "] and [": "]. *)
Definition dumps (v : json) : str :=
  match serialize ", " ": " v with
  | Some s => s
  | None => []
  end.

Definition ascii_upper (s : str) : str :=
  map (fun c => if ((97 <=? c) && (c <=? 122))%N then (c - 32)%N else c) s.

Definition python : builtins :=
  {| json_dumps := dumps;
     str_lower := Fixture.ascii_lower;
     str_upper := ascii_upper |}.

Definition no_credentials : exn :=
  Exn OtherException "Unable to locate credentials".

(** A host where the constructor of the parser fails at its first call and
    gives [parser] from the second on. *)
Definition second_try (parser : env nat) : host nat :=
  {| new_parser := fun n => match n with
                            | O => Raise no_credentials
                            | S _ => Ok parser
                            end;
     render := render_compact |}.

(** A process that has just been loaded, and one whose parser exists. *)
Definition loaded : process nat := Process None 0.

Definition ready (parser : env nat) : process nat := Process (Some parser) 2.

(** The upload of a PNG image, of a BMP image, of an empty PNG, and of a
    ZIP archive. *)
Definition png_upload : UploadFile :=
  Upload "scan.png" (Some (lit "image/png")) (Ok Fixture.png_bytes).

Definition bmp_upload : UploadFile :=
  Upload "scan.bmp" (Some (lit "image/bmp")) (Ok Fixture.png_bytes).

Definition empty_upload : UploadFile :=
  Upload "scan.png" (Some (lit "image/png")) (Ok []).

Definition zip_upload : UploadFile :=
  Upload "backup.zip" (Some (lit "application/zip")) (Ok Fixture.png_bytes).

Definition now : str := "2024-01-05T10:00:00".

(** A parser whose vision model transcribes nothing. *)
Definition blind_parser : env nat :=
  Fixture.world (Ok []) (Ok (Fixture.nova_reply (JStr "")))
    (Raise Fixture.unreachable).

End HttpFixture.

(** ** Vocabulary of the envelope *)

(** [result[k]] for the value a computation returned. *)
Definition entry {W} (k : str) (run : result json * state W) : result json :=
  r <~ fst run ;; Py.getitem r k.

Section Decoded.

Variable W : Type.
Variable E : env W.

(** [d] is what [json.loads] decoded from the reply to the structuring
    request for the text [x], sent in the state [st]: the reply has the
    expected shape, and [d] is decoded from its text, stripped and without
    its fence. *)
Definition decoded_from_reply (x : json) (st : state W) (d : json) : Prop :=
  exists text_head response_body ai_response clean_response,
    Py.slice_to (dict_slice E) 3000 x = Ok text_head /\
    fst (invoke E (structuring_request (structuring_prompt E text_head)) st)
      = Ok response_body /\
    nova_format response_body = Ok true /\
    nova_text response_body = Ok ai_response /\
    Py.strip ai_response = Ok clean_response /\
    json_loads E (clean_fences clean_response) = Ok d.

End Decoded.

(** * Properties *)

(** ** Strings *)

Lemma eqb_refl (a : str) : PyStr.eqb a a = true.
Proof.
  induction a as [|c a IH]; simpl; [reflexivity|].
  now rewrite N.eqb_refl, IH.
Qed.

Lemma eqb_eq (a b : str) : PyStr.eqb a b = true <-> a = b.
Proof.
  split; [|intros ->; apply eqb_refl].
  revert b; induction a as [|c a IH]; intros [|d b]; simpl; try easy.
  intros H; apply andb_true_iff in H as [Hc Hab].
  apply N.eqb_eq in Hc; subst d. now rewrite (IH b Hab).
Qed.

Lemma eqb_neq (a b : str) : a <> b -> PyStr.eqb a b = false.
Proof.
  intros H. destruct (PyStr.eqb a b) eqn:Heq; [|reflexivity].
  now apply eqb_eq in Heq.
Qed.

(** ** Running a computation *)

Section Run.

Variable W : Type.
Variable E : env W.

(** [parse_receipt] on a body that is known. *)
Lemma parse_receipt_of_try fc fn ct st r st' :
  parse_receipt_try E fc fn ct st = (Ok r, st') ->
  parse_receipt E fc fn ct st = (Ok r, st').
Proof. intros H. unfold parse_receipt, try_except. now rewrite H. Qed.

Lemma parse_receipt_of_raise fc fn ct st e st' :
  parse_receipt_try E fc fn ct st = (Raise e, st') ->
  parse_receipt E fc fn ct st = (Ok (failure (exn_str e) fallback_record), st').
Proof. intros H. unfold parse_receipt, try_except. now rewrite H. Qed.

End Run.

(** ** The stages, run *)

Section Stages.

Variable W : Type.
Variable E : env W.

Lemma invoke_run request_body (st : state W) :
  invoke E request_body st =
    (fst (invoke_model E (model_id E) request_body (service st)),
     State (snd (invoke_model E (model_id E) request_body (service st)))
           (sent st ++ [request_body])).
Proof.
  unfold invoke.
  now destruct (invoke_model E (model_id E) request_body (service st)).
Qed.

Lemma extract_text_from_pdf_run fc (st : state W) :
  extract_text_from_pdf E fc st = (Ok (JStr (pdf_text E fc)), st).
Proof.
  unfold extract_text_from_pdf, pdf_text, try_except, bind, lift, ret, and_then.
  destruct (fitz_open E fc) as [doc|e]; [|reflexivity].
  now destruct (pdf_pages_text doc "").
Qed.

Lemma extract_text_from_image_run fc ct (st : state W) :
  let request_body := vision_request (b64encode E fc) ct in
  extract_text_from_image E fc ct st =
    (Ok (vision_outcome (fst (invoke E request_body st))),
     snd (invoke E request_body st)).
Proof.
  intros request_body.
  unfold extract_text_from_image, vision_outcome, try_except, bind, lift, ret,
    and_then.
  fold request_body.
  destruct (invoke E request_body st) as [[rb|e] st']; simpl; [|reflexivity].
  destruct (nova_format rb) as [[|]|e]; try reflexivity.
  now destruct (nova_text rb).
Qed.

Lemma parse_receipt_text_run x (st : state W) :
  parse_receipt_text E x st =
    match Py.slice_to (dict_slice E) 3000 x with
    | Ok text_head =>
        let request_body := structuring_request (structuring_prompt E text_head) in
        (Ok (structuring_outcome E (fst (invoke E request_body st))),
         snd (invoke E request_body st))
    | Raise _ => (Ok fallback_record, st)
    end.
Proof.
  unfold parse_receipt_text, structuring_outcome, decode_reply, try_except,
    try_except_on, _create_fallback_response, bind, lift, ret, and_then.
  destruct (Py.slice_to (dict_slice E) 3000 x) as [h|e]; [|reflexivity].
  cbv zeta.
  destruct (invoke E (structuring_request (structuring_prompt E h)) st)
    as [[rb|e] st']; simpl; [|reflexivity].
  destruct (nova_format rb) as [[|]|e]; try reflexivity.
  destruct (nova_text rb) as [a|e]; [|reflexivity].
  destruct (Py.strip a) as [c|e]; [|now destruct (is_JSONDecodeError e)].
  destruct (json_loads E (clean_fences c)) as [v|e]; [reflexivity|].
  now destruct (is_JSONDecodeError e).
Qed.

End Stages.

(** ** The fallback record *)

(** C6. [_create_fallback_response] takes no input, leaves the state as it
    is and always returns the same record, whose fields hold the sentinel
    values: [item_name] and [vendor] are "Unable to extract", [price] is 0,
    [date] is the empty string, [model_number] is [None], [description] is
    "Manual entry required" and [category] is "Other". *)
Theorem fallback_response_fixed (W : Type) (st : state W) :
  _create_fallback_response st = (Ok fallback_record, st) /\
  Py.getitem fallback_record "item_name" = Ok (JStr "Unable to extract") /\
  Py.getitem fallback_record "vendor" = Ok (JStr "Unable to extract") /\
  Py.getitem fallback_record "price" = Ok (JInt 0) /\
  Py.getitem fallback_record "date" = Ok (JStr []) /\
  Py.getitem fallback_record "model_number" = Ok JNull /\
  Py.getitem fallback_record "description" = Ok (JStr "Manual entry required") /\
  Py.getitem fallback_record "category" = Ok (JStr "Other").
Proof. repeat split. Qed.

Lemma fallback_category_listed : category_listed fallback_record = true.
Proof. reflexivity. Qed.

(** ** The failure paths of the orchestrator *)

Section Failures.

Variable W : Type.
Variable E : env W.

Lemma parse_receipt_try_extracts fc fn ct (st : state W) x st' :
  extracts E fc fn ct st x st' ->
  parse_receipt_try E fc fn ct st = parse_extracted E x st'.
Proof.
  unfold parse_receipt_try, bind.
  intros [[Hpdf Hx] | [Hpdf [Himg Hx]]]; rewrite Hpdf.
  - now rewrite Hx.
  - now rewrite Himg, Hx.
Qed.

(** An extraction strategy sends at most the image request. *)
Lemma extracts_sent fc fn ct (st : state W) x st' :
  extracts E fc fn ct st x st' ->
  sent st' = sent st \/
  sent st' = sent st ++ [vision_request (b64encode E fc) ct].
Proof.
  intros [[_ Hx] | [_ [_ Hx]]].
  - rewrite extract_text_from_pdf_run in Hx. injection Hx as _ <-. now left.
  - rewrite extract_text_from_image_run, invoke_run in Hx.
    injection Hx as _ <-. now right.
Qed.

Lemma vision_is_not_structuring image_base64 mime_type prompt :
  vision_request image_base64 mime_type <> structuring_request prompt.
Proof. unfold vision_request, structuring_request. intros H. discriminate H. Qed.

(** C3. When the content type is not [application/pdf] and does not start
    with [image/], and the lower-cased file name ends in none of the
    extensions the orchestrator knows, [parse_receipt] returns the failure
    envelope: [success] is false, [error] is "Unsupported file type: "
    followed by the content type, [data] is the fallback record; and the
    state is untouched, so no request has left for the model. *)
Theorem unsupported_type_fails fc fn ct (st : state W) :
  ct <> lit "application/pdf" ->
  startswith ct "image/" = false ->
  (forall ext,
     In ext [lit ".pdf"; lit ".png"; lit ".jpg"; lit ".jpeg"; lit ".gif";
             lit ".bmp"] ->
     endswith (lower E fn) ext = false) ->
  parse_receipt E fc fn ct st =
    (Ok (failure (lit "Unsupported file type: " ++ ct) fallback_record), st)
  /\ sent (snd (parse_receipt E fc fn ct st)) = sent st
  /\ entry "success" (parse_receipt E fc fn ct st) = Ok (JBool false)
  /\ entry "error" (parse_receipt E fc fn ct st)
     = Ok (JStr (lit "Unsupported file type: " ++ ct))
  /\ entry "data" (parse_receipt E fc fn ct st) = Ok fallback_record.
Proof.
  intros Hpdf Himg Hext.
  assert (Hrun : parse_receipt E fc fn ct st =
    (Ok (failure (lit "Unsupported file type: " ++ ct) fallback_record), st)).
  { apply parse_receipt_of_try.
    unfold parse_receipt_try, is_pdf, is_image, endswith_any.
    rewrite (eqb_neq Hpdf), Himg. cbn [existsb].
    rewrite !Hext by (simpl; tauto). reflexivity. }
  rewrite Hrun. repeat split.
Qed.

(** C4. When the input is given to an extraction strategy (PDF or image)
    and the strategy returns the empty string, [parse_receipt] returns the
    failure envelope with [error] "No text could be extracted from the file"
    and the fallback record as [data]; it stops in the state the extraction
    left, and no request of the structuring stage is among those sent. *)
Theorem empty_text_fails fc fn ct (st st1 : state W) :
  extracts E fc fn ct st (JStr []) st1 ->
  parse_receipt E fc fn ct st =
    (Ok (failure "No text could be extracted from the file" fallback_record),
     st1)
  /\ (exists new,
       sent st1 = sent st ++ new /\
       forall prompt, ~ In (structuring_request prompt) new)
  /\ entry "success" (parse_receipt E fc fn ct st) = Ok (JBool false)
  /\ entry "error" (parse_receipt E fc fn ct st)
     = Ok (JStr "No text could be extracted from the file")
  /\ entry "data" (parse_receipt E fc fn ct st) = Ok fallback_record.
Proof.
  intros Hx.
  assert (Hrun : parse_receipt E fc fn ct st =
    (Ok (failure "No text could be extracted from the file" fallback_record),
     st1)).
  { apply parse_receipt_of_try.
    now rewrite (parse_receipt_try_extracts Hx). }
  rewrite Hrun. split; [reflexivity|]. split; [|repeat split].
  destruct (extracts_sent Hx) as [-> | ->].
  - exists []. split; [now rewrite app_nil_r | intros p []].
  - eexists; split; [reflexivity|].
    intros p [H | []]. exact (vision_is_not_structuring H).
Qed.

End Failures.

(** The scenario of a ZIP archive. *)
Lemma unsupported_type_fails_zip :
  let E := Fixture.world (Ok []) (Raise Fixture.decode_error)
             (Raise Fixture.decode_error) in
  parse_receipt E [] "backup.zip" "application/zip" Fixture.start =
    (Ok (failure "Unsupported file type: application/zip" fallback_record),
     Fixture.start)
  /\ sent (snd (parse_receipt E [] "backup.zip" "application/zip" Fixture.start))
     = []
  /\ entry "success"
       (parse_receipt E [] "backup.zip" "application/zip" Fixture.start)
     = Ok (JBool false)
  /\ entry "error"
       (parse_receipt E [] "backup.zip" "application/zip" Fixture.start)
     = Ok (JStr "Unsupported file type: application/zip")
  /\ entry "data"
       (parse_receipt E [] "backup.zip" "application/zip" Fixture.start)
     = Ok fallback_record.
Proof.
  intros E.
  apply (@unsupported_type_fails nat E [] "backup.zip" "application/zip"
           Fixture.start).
  - intros H. discriminate H.
  - reflexivity.
  - intros ext Hin. simpl in Hin.
    repeat (destruct Hin as [<- | Hin]; [vm_compute; reflexivity|]).
    destruct Hin.
Defined.

(** The scenario of a PNG image whose transcription is empty. *)
Lemma empty_text_fails_png :
  let E := Fixture.world (Ok []) (Ok (Fixture.nova_reply (JStr "")))
             (Raise Fixture.decode_error) in
  let st1 := State 1 [vision_request Fixture.png_base64 "image/png"] in
  parse_receipt E Fixture.png_bytes "scan.png" "image/png" Fixture.start =
    (Ok (failure "No text could be extracted from the file" fallback_record),
     st1)
  /\ (exists new,
       sent st1 = sent Fixture.start ++ new /\
       forall prompt, ~ In (structuring_request prompt) new)
  /\ entry "success"
       (parse_receipt E Fixture.png_bytes "scan.png" "image/png" Fixture.start)
     = Ok (JBool false)
  /\ entry "error"
       (parse_receipt E Fixture.png_bytes "scan.png" "image/png" Fixture.start)
     = Ok (JStr "No text could be extracted from the file")
  /\ entry "data"
       (parse_receipt E Fixture.png_bytes "scan.png" "image/png" Fixture.start)
     = Ok fallback_record.
Proof.
  intros E st1.
  apply (@empty_text_fails nat E Fixture.png_bytes "scan.png" "image/png"
           Fixture.start st1).
  right. repeat split; vm_compute; reflexivity.
Defined.

(** ** Structuring and the envelope of a success *)

Section Structuring.

Variable W : Type.
Variable E : env W.

(** [parse_receipt_text] always returns, and what it returns is the fallback
    record or a value that [json.loads] decoded. *)
Lemma parse_receipt_text_returns x (st : state W) :
  exists d st',
    parse_receipt_text E x st = (Ok d, st') /\
    (d = fallback_record \/ exists s, json_loads E s = Ok d).
Proof.
  pose proof (parse_receipt_text_run E x st) as Hrun.
  destruct (Py.slice_to (dict_slice E) 3000 x) as [h|e].
  2:{ exists fallback_record, st. split; [exact Hrun | now left]. }
  cbv zeta in Hrun. eexists; eexists; split; [exact Hrun|].
  unfold structuring_outcome, and_then.
  destruct (fst _) as [rb|e]; [|now left].
  destruct (nova_format rb) as [[|]|e]; try now left.
  destruct (nova_text rb) as [a|e]; [|now left].
  destruct (Py.strip a) as [c|e]; [|now left].
  destruct (json_loads E (clean_fences c)) as [v|e] eqn:Hv; [|now left].
  right. now exists (clean_fences c).
Qed.

Lemma parse_extracted_falsy x (st : state W) :
  Py.truthy x = false ->
  parse_extracted E x st =
    (Ok (failure "No text could be extracted from the file" fallback_record),
     st).
Proof. intros H. unfold parse_extracted. now rewrite H. Qed.

Lemma parse_extracted_truthy x (st : state W) d st' :
  Py.truthy x = true ->
  parse_receipt_text E x st = (Ok d, st') ->
  parse_extracted E x st =
    match text_preview E x with
    | Ok preview => (Ok (success preview d), st')
    | Raise e => (Raise e, st')
    end.
Proof.
  intros Ht Hd. unfold parse_extracted, bind, lift, ret.
  rewrite Ht. cbn beta iota delta [negb]. rewrite Hd.
  now destruct (text_preview E x).
Qed.

Lemma truthy_text t : t <> [] -> Py.truthy (JStr t) = true.
Proof. intros H. simpl. now rewrite (eqb_neq H). Qed.

(** The preview of a text. *)
Lemma text_preview_text t :
  text_preview E (JStr t) =
    Ok (JStr (if Nat.ltb 500 (List.length t)
              then PyStr.slice_to 500 t ++ lit "..." else t)).
Proof.
  unfold text_preview, and_then. cbn [Py.len Py.slice_to Py.add_str].
  now destruct (Nat.ltb 500 (List.length t)).
Qed.

(** The orchestrator on a text that is not empty. *)
Lemma parse_extracted_text t (st : state W) :
  t <> [] ->
  let request_body :=
    structuring_request (structuring_prompt E (JStr (PyStr.slice_to 3000 t))) in
  parse_extracted E (JStr t) st =
    (Ok (success
           (JStr (if Nat.ltb 500 (List.length t)
                  then PyStr.slice_to 500 t ++ lit "..." else t))
           (structuring_outcome E (fst (invoke E request_body st)))),
     snd (invoke E request_body st)).
Proof.
  intros Ht request_body.
  rewrite (parse_extracted_truthy (JStr t) st (truthy_text Ht)
             (parse_receipt_text_run E (JStr t) st)).
  now rewrite text_preview_text.
Qed.

Lemma Ok_inj A (a b : A) : Ok a = Ok b -> a = b.
Proof. congruence. Qed.

Lemma JStr_inj (a b : str) : JStr a = JStr b -> a = b.
Proof. congruence. Qed.

Lemma length_dotted t : List.length (PyStr.slice_to 500 t ++ lit "...") <= 503.
Proof.
  unfold PyStr.slice_to. rewrite length_app, length_firstn.
  change (List.length (lit "...")) with 3. lia.
Qed.

(** A preview that is returned is the text itself, or the first 500
    characters of a string followed by three dots. *)
Lemma text_preview_cases x preview :
  text_preview E x = Ok preview ->
  exists n,
    Py.len x = Ok n /\
    (n <= 500 -> preview = x) /\
    (500 < n ->
     exists t, x = JStr t /\ preview = JStr (PyStr.slice_to 500 t ++ lit "...")) /\
    (forall p, preview = JStr p -> List.length p <= 503).
Proof.
  unfold text_preview, and_then.
  destruct (Py.len x) as [n|e] eqn:Hn; [|discriminate].
  intros H. exists n. split; [reflexivity|].
  destruct (Nat.ltb_spec 500 n) as [Hlt | Hle].
  - destruct x; cbn [Py.slice_to Py.add_str Py.len] in H, Hn; try discriminate.
    apply Ok_inj in H, Hn. subst preview.
    split; [lia|]. split; [now exists s|].
    intros p Hp. apply JStr_inj in Hp. subst p. apply length_dotted.
  - apply Ok_inj in H. subst preview. split; [reflexivity|]. split; [lia|].
    intros p ->. cbn [Py.len] in Hn. injection Hn as Hn. lia.
Qed.

(** C5. When an extraction strategy returns a text that is not empty and
    the reply to the structuring request lacks the expected shape (the test
    on [output] and [message] fails or raises), or carries a text that
    [json.loads] cannot decode once stripped of its fence, [parse_receipt]
    returns an envelope whose [success] is true and whose [data] is exactly
    the fallback record; its [extracted_text] is the preview of the text,
    and it has no other entry. *)
Theorem structuring_failure_keeps_success fc fn ct (st st1 : state W) t rb w :
  extracts E fc fn ct st (JStr t) st1 ->
  t <> [] ->
  let request_body :=
    structuring_request (structuring_prompt E (JStr (PyStr.slice_to 3000 t))) in
  invoke_model E (model_id E) request_body (service st1) = (Ok rb, w) ->
  nova_format rb <> Ok true \/
  (exists a e, nova_text rb = Ok (JStr a) /\
               json_loads E (clean_fences (PyStr.strip a)) = Raise e) ->
  parse_receipt E fc fn ct st =
    (Ok (success
           (JStr (if Nat.ltb 500 (List.length t)
                  then PyStr.slice_to 500 t ++ lit "..." else t))
           fallback_record),
     State w (sent st1 ++ [request_body]))
  /\ entry "success" (parse_receipt E fc fn ct st) = Ok (JBool true)
  /\ entry "data" (parse_receipt E fc fn ct st) = Ok fallback_record
  /\ entry "extracted_text" (parse_receipt E fc fn ct st)
     = Ok (JStr (if Nat.ltb 500 (List.length t)
                 then PyStr.slice_to 500 t ++ lit "..." else t))
  /\ (exists r, fst (parse_receipt E fc fn ct st) = Ok r /\
                keys r = [lit "success"; lit "extracted_text"; lit "data"]).
Proof.
  intros Hx Ht request_body Hreply Hbad.
  assert (Hrun : parse_receipt E fc fn ct st =
    (Ok (success
           (JStr (if Nat.ltb 500 (List.length t)
                  then PyStr.slice_to 500 t ++ lit "..." else t))
           fallback_record),
     State w (sent st1 ++ [request_body]))).
  { apply parse_receipt_of_try.
    rewrite (parse_receipt_try_extracts Hx), (parse_extracted_text st1 Ht).
    fold request_body. rewrite invoke_run, Hreply. simpl fst; simpl snd.
    do 3 f_equal.
    unfold structuring_outcome, and_then.
    destruct Hbad as [Hshape | (a & e & Ha & He)].
    - destruct (nova_format rb) as [[|]|e]; [now destruct Hshape | easy | easy].
    - destruct (nova_format rb) as [[|]|e']; try reflexivity.
      rewrite Ha. simpl. now rewrite He. }
  rewrite Hrun. repeat split.
  eexists. split; reflexivity.
Qed.

(** C7. In every envelope with [success] true that [parse_receipt] returns,
    [extracted_text] is the text the extraction returned when its length is
    500 or less, and otherwise the first 500 characters of that text
    followed by "..."; a preview that is a string has at most 503
    characters. *)
Theorem preview_truncation fc fn ct (st : state W) r st' :
  parse_receipt E fc fn ct st = (Ok r, st') ->
  Py.getitem r "success" = Ok (JBool true) ->
  exists x st1 n preview,
    extracts E fc fn ct st x st1 /\
    Py.len x = Ok n /\
    Py.getitem r "extracted_text" = Ok preview /\
    (n <= 500 -> preview = x) /\
    (500 < n ->
     exists t, x = JStr t /\ preview = JStr (PyStr.slice_to 500 t ++ lit "...")) /\
    (forall p, preview = JStr p -> List.length p <= 503).
Proof.
  intros Hrun Hok.
  assert (Hfail : forall e d,
            Py.getitem (failure e d) "success" <> Ok (JBool true))
    by (intros e d H; discriminate H).
  unfold parse_receipt, try_except in Hrun.
  destruct (parse_receipt_try E fc fn ct st) as [[r0|e] st0] eqn:Htry.
  2:{ injection Hrun as <- _. now apply Hfail in Hok. }
  injection Hrun as -> ->.
  assert (Hx : exists x st1,
            extracts E fc fn ct st x st1 /\
            parse_extracted E x st1 = (Ok r, st')).
  { unfold parse_receipt_try, bind in Htry. unfold extracts.
    destruct (is_pdf E fn ct) eqn:Hpdf.
    - destruct (extract_text_from_pdf E fc st) as [[x|e] st1] eqn:Hext;
        [|discriminate].
      exists x, st1. split; [left; now split | exact Htry].
    - destruct (is_image E fn ct) eqn:Himg.
      + destruct (extract_text_from_image E fc ct st) as [[x|e] st1] eqn:Hext;
          [|discriminate].
        exists x, st1. split; [right; now repeat split | exact Htry].
      + injection Htry as <- _. now apply Hfail in Hok. }
  destruct Hx as (x & st1 & Hx & Hrest).
  destruct (Py.truthy x) eqn:Htruthy.
  2:{ rewrite (parse_extracted_falsy x st1 Htruthy) in Hrest.
      injection Hrest as <- _. now apply Hfail in Hok. }
  destruct (parse_receipt_text_returns x st1) as (d & st2 & Hd & _).
  rewrite (parse_extracted_truthy x st1 Htruthy Hd) in Hrest.
  destruct (text_preview E x) as [preview|e] eqn:Hp; [|discriminate].
  injection Hrest as <- _.
  destruct (text_preview_cases x Hp) as (n & Hn & Hsmall & Hbig & Hlen).
  exists x, st1, n, preview. repeat split; assumption || reflexivity.
Qed.

End Structuring.

(** The scenario of a structuring reply that is not JSON. *)
Lemma structuring_failure_keeps_success_not_json :
  let E := Fixture.pdf_world Fixture.receipt_text
             (Ok (Fixture.nova_reply (JStr "not json"))) in
  let run := parse_receipt E [] "receipt.pdf" "application/pdf" Fixture.start in
  run =
    (Ok (success (JStr Fixture.receipt_text) fallback_record),
     State 1 [structuring_request
                (structuring_prompt E (JStr Fixture.receipt_text))])
  /\ entry "success" run = Ok (JBool true)
  /\ entry "data" run = Ok fallback_record
  /\ entry "extracted_text" run = Ok (JStr Fixture.receipt_text)
  /\ (exists r, fst run = Ok r /\
                keys r = [lit "success"; lit "extracted_text"; lit "data"]).
Proof.
  intros E run.
  apply (@structuring_failure_keeps_success nat E [] "receipt.pdf"
           "application/pdf" Fixture.start Fixture.start Fixture.receipt_text
           (Fixture.nova_reply (JStr "not json")) 1).
  - left. split; vm_compute; reflexivity.
  - discriminate.
  - vm_compute; reflexivity.
  - right. exists (lit "not json"), Fixture.decode_error.
    split; vm_compute; reflexivity.
Defined.

(** A text of 600 characters is cut to 500 and three dots. *)
Lemma preview_truncation_600 :
  let E := Fixture.pdf_world (repeat 120%N 600)
             (Ok (Fixture.nova_reply (JStr "{}"))) in
  let r := success (JStr (repeat 120%N 500 ++ lit "...")) (JObj []) in
  exists x st1 n preview,
    extracts E [] "receipt.pdf" "application/pdf" Fixture.start x st1 /\
    Py.len x = Ok n /\
    Py.getitem r "extracted_text" = Ok preview /\
    (n <= 500 -> preview = x) /\
    (500 < n ->
     exists t, x = JStr t /\ preview = JStr (PyStr.slice_to 500 t ++ lit "...")) /\
    (forall p, preview = JStr p -> List.length p <= 503).
Proof.
  intros E r.
  apply (@preview_truncation nat E [] "receipt.pdf" "application/pdf"
           Fixture.start r
           (State 1 [structuring_request
                       (structuring_prompt E (JStr (repeat 120%N 600)))])).
  - vm_compute; reflexivity.
  - vm_compute; reflexivity.
Defined.

(** ** The sentinel of the image strategy *)

Section Sentinel.

Variable W : Type.
Variable E : env W.


(** Two replies that fail the test: a dict without [output], and a dict
    whose [output] is a dict without [message]. *)
Lemma nova_format_without_output kv :
  Py.lookup "output" kv = None -> nova_format (JObj kv) = Ok false.
Proof. intros H. unfold nova_format, and_then. simpl. now rewrite H. Qed.

Lemma nova_format_without_message kv kv' :
  Py.lookup "output" kv = Some (JObj kv') ->
  Py.lookup "message" kv' = None ->
  nova_format (JObj kv) = Ok false.
Proof.
  intros H H'. unfold nova_format, and_then. simpl. rewrite H. simpl.
  now rewrite H'.
Qed.


End Sentinel.



(** ** Two invocations on the same input *)

Section Determinism.

Variable W : Type.
Variable E : env W.

Lemma stateless_ret A (a : A) : stateless (ret a : M W A).
Proof. now intros st1 st2. Qed.

Lemma stateless_lift A (r : result A) : stateless (lift r : M W A).
Proof. now intros st1 st2. Qed.

Lemma stateless_bind A B (m : M W A) (k : A -> M W B) :
  stateless m -> (forall a, stateless (k a)) -> stateless (bind m k).
Proof.
  intros Hm Hk st1 st2. unfold bind.
  specialize (Hm st1 st2).
  destruct (m st1) as [[a1|e1] s1], (m st2) as [[a2|e2] s2];
    simpl in *; try discriminate; [|congruence].
  apply Ok_inj in Hm. subst a2. apply Hk.
Qed.

Lemma stateless_try_except A (body : M W A) (handler : exn -> M W A) :
  stateless body -> (forall e, stateless (handler e)) ->
  stateless (try_except body handler).
Proof.
  intros Hb Hh st1 st2. unfold try_except.
  specialize (Hb st1 st2).
  destruct (body st1) as [[a1|e1] s1], (body st2) as [[a2|e2] s2];
    simpl in *; try discriminate; try assumption.
  assert (e1 = e2) by congruence. subst e2. apply Hh.
Qed.

Lemma stateless_try_except_on A catches (body : M W A) (handler : exn -> M W A) :
  stateless body -> (forall e, stateless (handler e)) ->
  stateless (try_except_on catches body handler).
Proof.
  intros Hb Hh st1 st2. unfold try_except_on.
  specialize (Hb st1 st2).
  destruct (body st1) as [[a1|e1] s1], (body st2) as [[a2|e2] s2];
    simpl in *; try discriminate; try assumption.
  assert (e1 = e2) by congruence. subst e2.
  destruct (catches e1); [apply Hh | reflexivity].
Qed.

Lemma stateless_if A (b : bool) (m1 m2 : M W A) :
  stateless m1 -> stateless m2 -> stateless (if b then m1 else m2).
Proof. now destruct b. Qed.

Hypothesis Hdet : deterministic E.

Lemma stateless_invoke request_body : stateless (invoke E request_body).
Proof. intros st1 st2. rewrite !invoke_run. apply Hdet. Qed.

Ltac stateless :=
  repeat first
    [ apply stateless_ret | apply stateless_lift | apply stateless_invoke
    | apply stateless_try_except_on | apply stateless_try_except
    | apply stateless_if | apply stateless_bind | intro ].

Lemma stateless_extract_text_from_pdf fc :
  stateless (extract_text_from_pdf E fc).
Proof. unfold extract_text_from_pdf. stateless. Qed.

Lemma stateless_extract_text_from_image fc ct :
  stateless (extract_text_from_image E fc ct).
Proof. unfold extract_text_from_image. cbv zeta. stateless. Qed.

Lemma stateless_parse_receipt_text x : stateless (parse_receipt_text E x).
Proof.
  unfold parse_receipt_text, decode_reply, _create_fallback_response.
  cbv zeta. stateless.
Qed.

Lemma stateless_parse_extracted x : stateless (parse_extracted E x).
Proof.
  unfold parse_extracted, _create_fallback_response.
  apply stateless_if; [stateless|].
  apply stateless_bind; [apply stateless_parse_receipt_text | stateless].
Qed.

(** C9. Against a deterministic model, two invocations of [parse_receipt]
    with the same bytes, the same file name and the same content type return
    the same result, whatever the states they start in. *)
Theorem parse_receipt_repeatable fc fn ct (st1 st2 : state W) :
  fst (parse_receipt E fc fn ct st1) = fst (parse_receipt E fc fn ct st2).
Proof.
  revert st1 st2. change (stateless (parse_receipt E fc fn ct)).
  unfold parse_receipt, parse_receipt_try, _create_fallback_response.
  apply stateless_try_except; [|stateless].
  repeat apply stateless_if; [| |stateless].
  - apply stateless_bind;
      [apply stateless_extract_text_from_pdf | apply stateless_parse_extracted].
  - apply stateless_bind;
      [apply stateless_extract_text_from_image | apply stateless_parse_extracted].
Qed.

End Determinism.

(** The second invocation of the receipt scenario, after the first. *)
Lemma parse_receipt_repeatable_receipt :
  let E := Fixture.pdf_world Fixture.receipt_text
             (Ok (Fixture.nova_reply (JStr "{}"))) in
  let st1 := Fixture.start in
  let st2 := snd (parse_receipt E [] "receipt.pdf" "application/pdf" st1) in
  service st1 <> service st2 /\
  fst (parse_receipt E [] "receipt.pdf" "application/pdf" st1)
  = fst (parse_receipt E [] "receipt.pdf" "application/pdf" st2).
Proof.
  intros E st1 st2. split; [vm_compute; discriminate|].
  apply (@parse_receipt_repeatable nat E).
  intros model request_body w1 w2. reflexivity.
Defined.

(** ** Code fences *)

Lemma lstrip_blank ws s : blank ws = true -> lstrip (ws ++ s) = lstrip s.
Proof.
  induction ws as [|c ws IH]; simpl; [reflexivity|].
  intros H. apply andb_true_iff in H as [Hc Hws]. now rewrite Hc, IH.
Qed.

Lemma blank_rev ws : blank ws = true -> blank (rev ws) = true.
Proof.
  unfold blank. rewrite !forallb_forall. intros H c Hc.
  apply H. now apply in_rev.
Qed.

Lemma blank_app ws1 ws2 :
  blank ws1 = true -> blank ws2 = true -> blank (ws1 ++ ws2) = true.
Proof. unfold blank. intros H1 H2. now rewrite forallb_app, H1, H2. Qed.

Lemma strip_framed ws1 ws2 x m y :
  blank ws1 = true -> blank ws2 = true ->
  isspace x = false -> isspace y = false ->
  PyStr.strip (ws1 ++ framed x m y ++ ws2) = framed x m y.
Proof.
  intros H1 H2 Hx Hy. unfold PyStr.strip, rstrip.
  rewrite lstrip_blank by assumption.
  assert (Hl : lstrip (framed x m y ++ ws2) = framed x m y ++ ws2)
    by (simpl; now rewrite Hx).
  rewrite Hl, rev_app_distr, lstrip_blank by now apply blank_rev.
  unfold framed. simpl rev. rewrite rev_app_distr. simpl.
  rewrite Hy. simpl. rewrite rev_app_distr, rev_involutive. reflexivity.
Qed.

Lemma startswith_app p s : startswith (p ++ s) p = true.
Proof.
  induction p as [|c p IH]; simpl; [now destruct s|].
  now rewrite N.eqb_refl.
Qed.

Lemma endswith_app s p : endswith (s ++ p) p = true.
Proof. unfold endswith. rewrite rev_app_distr. apply startswith_app. Qed.

Lemma endswith_last m y c p :
  N.eqb y c = false -> endswith (m ++ [y]) (p ++ [c]) = false.
Proof.
  intros H. unfold endswith. rewrite !rev_app_distr. simpl. now rewrite H.
Qed.

Lemma slice_to_neg_app s p n :
  List.length p = n -> slice_to_neg n (s ++ p) = s.
Proof.
  intros <-. unfold slice_to_neg. rewrite length_app, Nat.add_sub.
  rewrite firstn_app, Nat.sub_diag, firstn_all. simpl. apply app_nil_r.
Qed.

Lemma strip_core a wsL wsR x m y core :
  a = wsL ++ framed x m y ++ wsR -> core = framed x m y ->
  blank wsL = true -> blank wsR = true ->
  isspace x = false -> isspace y = false ->
  PyStr.strip a = core.
Proof. intros -> ->. apply strip_framed. Qed.

Ltac flatten :=
  unfold fenced, framed;
  change (lit "```json") with [96; 96; 96; 106; 115; 111; 110]%N;
  change (lit "```") with [96; 96; 96]%N;
  repeat (rewrite <- ?app_assoc; cbn [app]).

Lemma clean_fences_fenced ws1 ws2 ws3 ws4 mid lead trail :
  blank ws1 = true -> blank ws2 = true ->
  blank ws3 = true -> blank ws4 = true ->
  clean_fences
    (PyStr.strip (ws1 ++ fenced lead trail ws3 (framed 123 mid 125) ws4 ++ ws2))
  = framed 123 mid 125.
Proof.
  intros H1 H2 H3 H4.
  assert (Hobj : PyStr.strip (ws3 ++ framed 123 mid 125 ++ ws4)
                 = framed 123 mid 125)
    by now apply strip_framed.
  assert (Hobj0 : PyStr.strip (ws3 ++ framed 123 mid 125 ++ [])
                  = framed 123 mid 125)
    by now apply strip_framed.
  assert (Hobj1 : PyStr.strip ([] ++ framed 123 mid 125 ++ ws4)
                  = framed 123 mid 125)
    by now apply strip_framed.
  assert (Hobj2 : PyStr.strip ([] ++ framed 123 mid 125 ++ [])
                  = framed 123 mid 125)
    by now apply strip_framed.
  cbn [app] in Hobj1, Hobj2. rewrite app_nil_r in Hobj2.
  destruct lead, trail.
  - rewrite (@strip_core _ ws1 ws2 96
               (lit "``json" ++ ws3 ++ framed 123 mid 125 ++ ws4 ++ lit "``") 96
               (lit "```json" ++ (ws3 ++ framed 123 mid 125 ++ ws4) ++ lit "```"));
      try assumption; try reflexivity; try (flatten; reflexivity).
    unfold clean_fences. rewrite startswith_app.
    change (slice_from 7 (lit "```json" ++ ?s)) with s.
    rewrite endswith_app, slice_to_neg_app by reflexivity. exact Hobj.
  - rewrite (@strip_core _ ws1 (ws4 ++ ws2) 96
               (lit "``json" ++ ws3 ++ 123%N :: mid) 125
               (lit "```json" ++ ws3 ++ framed 123 mid 125));
      try assumption; try reflexivity; try (flatten; reflexivity);
      [|now apply blank_app].
    unfold clean_fences. rewrite startswith_app.
    change (slice_from 7 (lit "```json" ++ ?s)) with s.
    replace (endswith (ws3 ++ framed 123 mid 125) (lit "```")) with false.
    + rewrite <- Hobj0 at 2. f_equal. now rewrite app_nil_r.
    + symmetry. unfold framed.
      change (ws3 ++ 123%N :: mid ++ [125%N])
        with (ws3 ++ (123%N :: mid) ++ [125%N]).
      rewrite app_assoc. now apply (@endswith_last _ 125 96 (lit "``")).
  - rewrite (@strip_core _ (ws1 ++ ws3) ws2 123
               (mid ++ 125%N :: ws4 ++ lit "``") 96
               (framed 123 mid 125 ++ ws4 ++ lit "```"));
      try assumption; try reflexivity; try (flatten; reflexivity);
      [|now apply blank_app].
    unfold clean_fences.
    replace (startswith (framed 123 mid 125 ++ ws4 ++ lit "```") (lit "```json"))
      with false by reflexivity.
    rewrite app_assoc, endswith_app, slice_to_neg_app by reflexivity.
    exact Hobj1.
  - rewrite (@strip_core _ (ws1 ++ ws3) (ws4 ++ ws2) 123 mid 125
               (framed 123 mid 125));
      try assumption; try reflexivity; try (flatten; reflexivity);
      try now apply blank_app.
    unfold clean_fences.
    replace (startswith (framed 123 mid 125) (lit "```json"))
      with false by reflexivity.
    replace (endswith (framed 123 mid 125) (lit "```")) with false.
    + exact Hobj2.
    + symmetry. now apply (@endswith_last (123%N :: mid) 125 96 (lit "``")).
Qed.

Section Fenced.

Variable W : Type.
Variable E : env W.

(** X24. When the text of the structuring reply is, between white space,
    a JSON object that is preceded by the marker [```json] or by nothing
    and followed by the marker [```] or by nothing, [parse_receipt_text]
    removes the markers before it decodes and returns the decoded object,
    not the fallback record. *)
Theorem fenced_reply_is_decoded x text_head (st : state W) rb w
    ws1 ws2 ws3 ws4 mid lead trail v :
  Py.slice_to (dict_slice E) 3000 x = Ok text_head ->
  let request_body := structuring_request (structuring_prompt E text_head) in
  invoke_model E (model_id E) request_body (service st) = (Ok rb, w) ->
  nova_format rb = Ok true ->
  nova_text rb
    = Ok (JStr (ws1 ++ fenced lead trail ws3 (framed 123 mid 125) ws4 ++ ws2)) ->
  blank ws1 = true -> blank ws2 = true ->
  blank ws3 = true -> blank ws4 = true ->
  json_loads E (framed 123 mid 125) = Ok v ->
  parse_receipt_text E x st = (Ok v, State w (sent st ++ [request_body])).
Proof.
  intros Hhead request_body Hreply Hshape Htext H1 H2 H3 H4 Hv.
  rewrite parse_receipt_text_run, Hhead. cbv zeta. fold request_body.
  rewrite invoke_run, Hreply. cbn [fst snd].
  unfold structuring_outcome, and_then.
  rewrite Hshape, Htext. cbn [Py.strip].
  now rewrite clean_fences_fenced, Hv.
Qed.

End Fenced.

(** The object in a fence with the tag [json]. *)
Lemma fenced_reply_is_decoded_tagged :
  let E := Fixture.pdf_world Fixture.receipt_text
             (Ok (Fixture.nova_reply (JStr Fixture.tagged_fence_reply))) in
  parse_receipt_text E (JStr Fixture.receipt_text) Fixture.start =
    (Ok Fixture.widget,
     State 1 [structuring_request
                (structuring_prompt E (JStr Fixture.receipt_text))]).
Proof.
  intros E.
  apply (@fenced_reply_is_decoded nat E (JStr Fixture.receipt_text)
           (JStr Fixture.receipt_text) Fixture.start
           (Fixture.nova_reply (JStr Fixture.tagged_fence_reply)) 1
           [] [] [10%N] [10%N] (lit_sub "^item_name^: ^Widget^") true true
           Fixture.widget);
    vm_compute; reflexivity.
Defined.

(** C8. The code departs from the claim on a reply in a fence without the
    tag [json]. The only opening marker the code tests for is [```json]:
    of a JSON object between [```] and [```] the closing marker is removed
    and the opening one is kept, [json.loads] raises on what is left, and
    [parse_receipt_text] returns the fallback record although the object
    inside decodes; [parse_receipt] passes the fallback record on as
    [data]. *)
Theorem plain_fence_is_not_stripped :
  let reply := Fixture.plain_fence_reply in
  let E := Fixture.pdf_world Fixture.receipt_text
             (Ok (Fixture.nova_reply (JStr reply))) in
  let request_body :=
    structuring_request (structuring_prompt E (JStr Fixture.receipt_text)) in
  let run := parse_receipt E [] "receipt.pdf" "application/pdf" Fixture.start in
  reply = lit "```" ++ [10%N] ++ Fixture.widget_text ++ [10%N] ++ lit "```" /\
  json_loads E Fixture.widget_text = Ok Fixture.widget /\
  fst (invoke E request_body Fixture.start)
    = Ok (Fixture.nova_reply (JStr reply)) /\
  nova_text (Fixture.nova_reply (JStr reply)) = Ok (JStr reply) /\
  clean_fences (PyStr.strip reply)
    = lit "```" ++ [10%N] ++ Fixture.widget_text /\
  json_loads E (clean_fences (PyStr.strip reply)) = Raise Fixture.decode_error /\
  parse_receipt_text E (JStr Fixture.receipt_text) Fixture.start
    = (Ok fallback_record, State 1 [request_body]) /\
  fallback_record <> Fixture.widget /\
  entry "success" run = Ok (JBool true) /\
  entry "data" run = Ok fallback_record.
Proof.
  intros reply E request_body run. repeat split; try (vm_compute; reflexivity).
  intros H. discriminate H.
Qed.

(** ** The contract of the envelope *)

Section Contract.

Variable W : Type.
Variable E : env W.

Lemma extract_text_from_image_returns fc ct (st : state W) :
  exists x st', extract_text_from_image E fc ct st = (Ok x, st').
Proof. rewrite extract_text_from_image_run. now eexists; eexists. Qed.

(** What follows the extraction returns an envelope or raises; an envelope
    of failure carries the fallback record. *)
Lemma parse_extracted_cases x (st : state W) :
  exists d st',
    (d = fallback_record \/ exists s, json_loads E s = Ok d) /\
    (parse_extracted E x st
       = (Ok (failure "No text could be extracted from the file"
                fallback_record), st') /\
     Py.truthy x = false \/
     (exists preview, parse_extracted E x st = (Ok (success preview d), st')) /\
     Py.truthy x = true \/
     exists e, parse_extracted E x st = (Raise e, st')).
Proof.
  destruct (Py.truthy x) eqn:Ht.
  - destruct (parse_receipt_text_returns E x st) as (d & st' & Hd & Hor).
    exists d, st'. split; [exact Hor|].
    rewrite (parse_extracted_truthy E x st Ht Hd).
    destruct (text_preview E x) as [p|e].
    + right; left. split; [now exists p | reflexivity].
    + right; right. now exists e.
  - exists fallback_record, st. split; [now left|]. left.
    split; [now apply parse_extracted_falsy | reflexivity].
Qed.

(** The [try] block of [parse_receipt] returns an envelope or raises. *)
Lemma parse_receipt_try_cases fc fn ct (st : state W) :
  exists d st',
    (d = fallback_record \/ exists s, json_loads E s = Ok d) /\
    ((exists error,
        parse_receipt_try E fc fn ct st
          = (Ok (failure error fallback_record), st')) \/
     (exists preview,
        parse_receipt_try E fc fn ct st = (Ok (success preview d), st')) \/
     exists e, parse_receipt_try E fc fn ct st = (Raise e, st')).
Proof.
  assert (Hrest : forall x st1,
            extracts E fc fn ct st x st1 ->
            exists d st',
              (d = fallback_record \/ exists s, json_loads E s = Ok d) /\
              ((exists error,
                  parse_receipt_try E fc fn ct st
                    = (Ok (failure error fallback_record), st')) \/
               (exists preview,
                  parse_receipt_try E fc fn ct st
                    = (Ok (success preview d), st')) \/
               exists e, parse_receipt_try E fc fn ct st = (Raise e, st'))).
  { intros x st1 Hx. rewrite (parse_receipt_try_extracts Hx).
    destruct (parse_extracted_cases x st1)
      as (d & st' & Hor & [[H _] | [[[p H] _] | [e H]]]);
      exists d, st'; (split; [exact Hor|]); rewrite H.
    - left. now eexists.
    - right; left. now exists p.
    - right; right. now exists e. }
  destruct (is_pdf E fn ct) eqn:Hpdf.
  - apply (Hrest (JStr (pdf_text E fc)) st). left.
    split; [exact Hpdf | apply extract_text_from_pdf_run].
  - destruct (is_image E fn ct) eqn:Himg.
    + destruct (extract_text_from_image_returns fc ct st) as (x & st1 & Hx).
      apply (Hrest x st1). right. now repeat split.
    + exists fallback_record, st. split; [now left|]. left.
      exists (lit "Unsupported file type: " ++ ct).
      unfold parse_receipt_try. now rewrite Hpdf, Himg.
Qed.

(** The same three steps, keeping track of where a record that is not the
    fallback record comes from. *)
Lemma parse_receipt_text_traced x (st : state W) :
  exists d st',
    parse_receipt_text E x st = (Ok d, st') /\
    (d = fallback_record \/ decoded_from_reply E x st d).
Proof.
  pose proof (parse_receipt_text_run E x st) as Hrun.
  unfold decoded_from_reply.
  destruct (Py.slice_to (dict_slice E) 3000 x) as [h|e].
  2:{ exists fallback_record, st. split; [exact Hrun | now left]. }
  cbv zeta in Hrun. eexists; eexists; split; [exact Hrun|].
  unfold structuring_outcome, and_then.
  destruct (fst (invoke E (structuring_request (structuring_prompt E h)) st))
    as [rb|e] eqn:Hrb; [|now left].
  destruct (nova_format rb) as [[|]|e] eqn:Hshape; try now left.
  destruct (nova_text rb) as [a|e] eqn:Ha; [|now left].
  destruct (Py.strip a) as [c|e] eqn:Hc; [|now left].
  destruct (json_loads E (clean_fences c)) as [v|e] eqn:Hv; [|now left].
  right. exists h, rb, a, c. now repeat split.
Qed.

Lemma parse_extracted_traced x (st : state W) :
  exists d st',
    (d = fallback_record \/ decoded_from_reply E x st d) /\
    (parse_extracted E x st
       = (Ok (failure "No text could be extracted from the file"
                fallback_record), st') /\
     Py.truthy x = false \/
     (exists preview, parse_extracted E x st = (Ok (success preview d), st')) /\
     Py.truthy x = true \/
     exists e, parse_extracted E x st = (Raise e, st')).
Proof.
  destruct (Py.truthy x) eqn:Ht.
  - destruct (parse_receipt_text_traced x st) as (d & st' & Hd & Hor).
    exists d, st'. split; [exact Hor|].
    rewrite (parse_extracted_truthy E x st Ht Hd).
    destruct (text_preview E x) as [p|e].
    + right; left. split; [now exists p | reflexivity].
    + right; right. now exists e.
  - exists fallback_record, st. split; [now left|]. left.
    split; [now apply parse_extracted_falsy | reflexivity].
Qed.

Lemma parse_receipt_try_traced fc fn ct (st : state W) :
  exists d st',
    (d = fallback_record \/
     exists x st1,
       extracts E fc fn ct st x st1 /\ decoded_from_reply E x st1 d) /\
    ((exists error,
        parse_receipt_try E fc fn ct st
          = (Ok (failure error fallback_record), st')) \/
     (exists preview,
        parse_receipt_try E fc fn ct st = (Ok (success preview d), st')) \/
     exists e, parse_receipt_try E fc fn ct st = (Raise e, st')).
Proof.
  assert (Hrest : forall x st1,
            extracts E fc fn ct st x st1 ->
            exists d st',
              (d = fallback_record \/
               exists x st1,
                 extracts E fc fn ct st x st1 /\
                 decoded_from_reply E x st1 d) /\
              ((exists error,
                  parse_receipt_try E fc fn ct st
                    = (Ok (failure error fallback_record), st')) \/
               (exists preview,
                  parse_receipt_try E fc fn ct st
                    = (Ok (success preview d), st')) \/
               exists e, parse_receipt_try E fc fn ct st = (Raise e, st'))).
  { intros x st1 Hx. rewrite (parse_receipt_try_extracts Hx).
    destruct (parse_extracted_traced x st1)
      as (d & st' & Hor & [[H _] | [[[p H] _] | [e H]]]);
      exists d, st';
      (split; [destruct Hor as [-> | Hd];
               [now left | right; now exists x, st1]|]); rewrite H.
    - left. now eexists.
    - right; left. now exists p.
    - right; right. now exists e. }
  destruct (is_pdf E fn ct) eqn:Hpdf.
  - apply (Hrest (JStr (pdf_text E fc)) st). left.
    split; [exact Hpdf | apply extract_text_from_pdf_run].
  - destruct (is_image E fn ct) eqn:Himg.
    + destruct (extract_text_from_image_returns fc ct st) as (x & st1 & Hx).
      apply (Hrest x st1). right. now repeat split.
    + exists fallback_record, st. split; [now left|]. left.
      exists (lit "Unsupported file type: " ++ ct).
      unfold parse_receipt_try. now rewrite Hpdf, Himg.
Qed.

(** C1, amended. [parse_receipt] always returns, and the [data] of what it
    returns is the fallback record, whose [category] is "Other", one of the
    nine, or else, in an envelope whose [success] is true, exactly the value
    that [json.loads] decoded from the reply to the structuring request for
    the extracted text; the category of that value is not checked. For a
    PDF whose extracted text is not empty, [success] is true. *)
Theorem data_is_fallback_or_decoded fc fn ct (st : state W) :
  exists r st' d,
    parse_receipt E fc fn ct st = (Ok r, st') /\
    Py.getitem r "data" = Ok d /\
    (d = fallback_record /\ category_listed d = true \/
     Py.getitem r "success" = Ok (JBool true) /\
     exists x st1,
       extracts E fc fn ct st x st1 /\ decoded_from_reply E x st1 d) /\
    (is_pdf E fn ct = true -> pdf_text E fc <> [] ->
     Py.getitem r "success" = Ok (JBool true)).
Proof.
  assert (Hpdf : is_pdf E fn ct = true -> pdf_text E fc <> [] ->
                 exists d st',
                   parse_receipt E fc fn ct st
                   = (Ok (success
                            (JStr (if Nat.ltb 500 (List.length (pdf_text E fc))
                                   then PyStr.slice_to 500 (pdf_text E fc)
                                        ++ lit "..."
                                   else pdf_text E fc)) d), st')).
  { intros Hroute Htext. eexists; eexists.
    apply parse_receipt_of_try.
    rewrite (@parse_receipt_try_extracts _ E fc fn ct st
               (JStr (pdf_text E fc)) st)
      by (left; split; [exact Hroute | apply extract_text_from_pdf_run]).
    now rewrite (parse_extracted_text E st Htext). }
  destruct (parse_receipt_try_traced fc fn ct st)
    as (d & st' & Hor & [[error H] | [[p H] | [e H]]]).
  - exists (failure error fallback_record), st', fallback_record.
    split; [now apply parse_receipt_of_try|]. split; [reflexivity|].
    split; [left; now split|].
    intros Hroute Htext. destruct (Hpdf Hroute Htext) as (d' & st'' & H').
    rewrite (parse_receipt_of_try E fc fn ct st H) in H'. discriminate H'.
  - exists (success p d), st', d.
    split; [now apply parse_receipt_of_try|]. split; [reflexivity|].
    split; [|reflexivity].
    destruct Hor as [-> | Hs]; [left; now split | right; now split].
  - exists (failure (exn_str e) fallback_record), st', fallback_record.
    split; [now apply parse_receipt_of_raise|]. split; [reflexivity|].
    split; [left; now split|].
    intros Hroute Htext. destruct (Hpdf Hroute Htext) as (d' & st'' & H').
    rewrite (parse_receipt_of_raise E fc fn ct st H) in H'. discriminate H'.
Qed.


End Contract.

(** C1, as stated, fails: the record the model returns is passed on as it
    is. A reply with the category "Gadgets" to the text of a PDF gives an
    envelope whose [success] is true and whose [data] has that category,
    which is none of the nine. *)
Lemma category_is_not_checked :
  let E := Fixture.pdf_world Fixture.receipt_text
             (Ok (Fixture.nova_reply (JStr Fixture.gadget_text))) in
  let run := parse_receipt E [] "receipt.pdf" "application/pdf" Fixture.start in
  is_pdf E "receipt.pdf" "application/pdf" = true /\
  pdf_text E [] = Fixture.receipt_text /\
  fst run = Ok (success (JStr Fixture.receipt_text) Fixture.gadget) /\
  entry "success" run = Ok (JBool true) /\
  entry "data" run = Ok Fixture.gadget /\
  (data <~ entry "data" run ;; Py.getitem data "category")
    = Ok (JStr "Gadgets") /\
  Py.getitem Fixture.gadget "category" = Ok (JStr "Gadgets") /\
  category_listed Fixture.gadget = false /\
  ~ In (lit "Gadgets") categories.
Proof.
  intros E run. repeat split; try (vm_compute; reflexivity).
  intros Hin. vm_compute in Hin.
  repeat (destruct Hin as [Hin | Hin]; [discriminate Hin|]). exact Hin.
Qed.


(** The boundary is reached: a vision reply whose text is the number 42 is
    taken for a text, and [len] raises on it outside of every stage. *)
Example boundary_is_reached :
  let E := Fixture.world (Ok []) (Ok (Fixture.nova_reply (JInt 42)))
             (Ok (Fixture.nova_reply (JStr "{}"))) in
  exists e st',
    parse_receipt_try E Fixture.png_bytes "scan.png" "image/png" Fixture.start
      = (Raise e, st') /\
    exn_str e = lit "object of type 'int' has no len()" /\
    fst (parse_receipt E Fixture.png_bytes "scan.png" "image/png" Fixture.start)
      = Ok (failure "object of type 'int' has no len()" fallback_record).
Proof.
  intros E. eexists; eexists. repeat split; vm_compute; reflexivity.
Qed.

(** The decoder of the examples on the texts they use. *)
Example loads_examples :
  Fixture.loads Fixture.widget_text = Ok Fixture.widget /\
  Fixture.loads Fixture.gadget_text = Ok Fixture.gadget /\
  Fixture.loads "{}" = Ok (JObj []) /\
  Fixture.loads "not json" = Raise Fixture.decode_error /\
  Fixture.loads (lit "```" ++ [10%N] ++ Fixture.widget_text)
    = Raise Fixture.decode_error.
Proof. repeat split; vm_compute; reflexivity. Qed.

(** The prompts have the lengths of the literals of the source. *)
Example prompt_sizes :
  (List.length vision_prompt, List.length structuring_prompt_head,
   List.length structuring_prompt_tail) = (380, 2451, 88).
Proof. vm_compute. reflexivity. Qed.

(** * Further properties of the parser *)

(** ** The text of a PDF *)

Lemma pdf_pages_text_all texts text :
  pdf_pages_text (map Ok texts) text = Ok (text ++ List.concat texts).
Proof.
  revert text. induction texts as [|t texts IH]; intros text; simpl.
  - now rewrite app_nil_r.
  - now rewrite IH, app_assoc.
Qed.

Lemma pdf_pages_text_raises pages text e :
  In (Raise e) pages -> exists e', pdf_pages_text pages text = Raise e'.
Proof.
  revert text. induction pages as [|page pages IH]; intros text Hin;
    [destruct Hin|].
  destruct page as [t|e0]; simpl.
  - destruct Hin as [H | H]; [discriminate H | now apply IH].
  - now exists e0.
Qed.

Section PdfText.

Variable W : Type.
Variable E : env W.

(** X1. When PyMuPDF opens the file and gives the text of every page,
    [extract_text_from_pdf] returns the texts of the pages joined in page
    order, with nothing between them, and sends nothing to the model. *)
Theorem pdf_text_is_pages_joined fc texts (st : state W) :
  fitz_open E fc = Ok (map Ok texts) ->
  extract_text_from_pdf E fc st = (Ok (JStr (List.concat texts)), st).
Proof.
  intros Hopen. rewrite extract_text_from_pdf_run. unfold pdf_text, and_then.
  now rewrite Hopen, pdf_pages_text_all.
Qed.

(** X2. When PyMuPDF fails to open the file, or fails on one page, the text
    of the pages read before the failure is dropped: the result is the empty
    string, in an unchanged state. *)
Theorem pdf_failure_drops_all_text fc e (st : state W) :
  fitz_open E fc = Raise e \/
  (exists pages, fitz_open E fc = Ok pages /\ In (Raise e) pages) ->
  extract_text_from_pdf E fc st = (Ok (JStr []), st).
Proof.
  intros H. rewrite extract_text_from_pdf_run. unfold pdf_text, and_then.
  destruct H as [-> | (pages & -> & Hin)]; [reflexivity|].
  destruct (@pdf_pages_text_raises pages (lit "") e Hin) as [e' ->].
  reflexivity.
Qed.

End PdfText.

(** Two pages are joined. *)
Lemma pdf_text_is_pages_joined_two :
  let E := Fixture.world (Ok [Ok (lit "STORE A"); Ok (lit " / Widget")])
             (Raise Fixture.unreachable) (Raise Fixture.unreachable) in
  extract_text_from_pdf E [] Fixture.start
    = (Ok (JStr "STORE A / Widget"), Fixture.start).
Proof.
  intros E.
  apply (@pdf_text_is_pages_joined nat E [] [lit "STORE A"; lit " / Widget"]
           Fixture.start).
  reflexivity.
Defined.

(** A failure on the second page loses the first. *)
Lemma pdf_failure_drops_all_text_second_page :
  let E := Fixture.world
             (Ok [Ok (lit "STORE A"); Raise (Exn OtherException "bad page")])
             (Raise Fixture.unreachable) (Raise Fixture.unreachable) in
  extract_text_from_pdf E [] Fixture.start = (Ok (JStr []), Fixture.start).
Proof.
  intros E.
  apply (@pdf_failure_drops_all_text nat E []
           (Exn OtherException "bad page") Fixture.start).
  right. eexists. split; [reflexivity|]. right; left. reflexivity.
Defined.

(** ** The request for an image *)

Lemma contains_char s c :
  PyStr.contains s [c] = existsb (fun x => N.eqb x c) s.
Proof.
  induction s as [|x s IH]; [reflexivity|].
  cbn [PyStr.contains startswith existsb]. rewrite IH.
  destruct s; now rewrite andb_true_r.
Qed.

Lemma existsb_char_false c s :
  ~ In c s -> existsb (fun x => N.eqb x c) s = false.
Proof.
  intros Hin. destruct (existsb _ s) eqn:Hex; [|reflexivity].
  apply existsb_exists in Hex as (x & Hx & Heq).
  apply N.eqb_eq in Heq. now subst x.
Qed.

Lemma existsb_sep_false c s : ~ In c s -> existsb (N.eqb c) s = false.
Proof.
  intros Hin. destruct (existsb _ s) eqn:Hex; [|reflexivity].
  apply existsb_exists in Hex as (x & Hx & Heq).
  apply N.eqb_eq in Heq. now subst x.
Qed.

(** [split('/')[-1]] is what follows the last separator. *)
Lemma split_last_app sep pre sub :
  ~ In sep sub -> split_last sep (pre ++ sep :: sub) = sub.
Proof.
  intros Hin. induction pre as [|c pre IH]; cbn [app split_last].
  - now rewrite (existsb_sep_false _ _ Hin), N.eqb_refl.
  - assert (Hex : existsb (N.eqb sep) (pre ++ sep :: sub) = true).
    { apply existsb_exists. exists sep. split; [|apply N.eqb_refl].
      apply in_or_app. right. now left. }
    now rewrite Hex.
Qed.

(** X3. The format a vision request declares for its image is the part of
    the content type after its last slash, and it is "png" for a content
    type without a slash. *)
Theorem image_format_is_subtype image_base64 pre sub :
  ~ In 47%N sub ->
  image_format (vision_request image_base64 (pre ++ 47%N :: sub))
    = Some (JStr sub) /\
  image_format (vision_request image_base64 sub) = Some (JStr "png").
Proof.
  intros Hin. unfold image_format, vision_request.
  cbn [and_also field item Py.lookup nth_error].
  change (lit "/") with [47%N]. rewrite !contains_char.
  rewrite (existsb_char_false _ _ Hin), (split_last_app _ pre _ Hin).
  assert (Hex : existsb (fun x => N.eqb x 47) (pre ++ 47%N :: sub) = true).
  { apply existsb_exists. exists 47%N. split; [|reflexivity].
    apply in_or_app. right. now left. }
  rewrite Hex. split; reflexivity.
Qed.

(** The format of a JPEG. *)
Lemma image_format_is_subtype_jpeg :
  image_format (vision_request Fixture.png_base64 "image/jpeg")
    = Some (JStr "jpeg") /\
  image_format (vision_request Fixture.png_base64 "jpeg") = Some (JStr "png").
Proof.
  apply (@image_format_is_subtype Fixture.png_base64 (lit "image") (lit "jpeg")).
  intros Hin. vm_compute in Hin.
  repeat (destruct Hin as [Hin | Hin]; [discriminate Hin|]). exact Hin.
Defined.

Section VisionCall.

Variable W : Type.
Variable E : env W.

(** X4. [extract_text_from_image] sends exactly one request, the vision
    request for the image, whatever comes back; and when the call raises,
    it returns the empty string. *)
Theorem image_extraction_sends_one_request fc ct (st : state W) :
  sent (snd (extract_text_from_image E fc ct st))
    = sent st ++ [vision_request (b64encode E fc) ct] /\
  (forall e,
     fst (invoke_model E (model_id E) (vision_request (b64encode E fc) ct)
            (service st)) = Raise e ->
     fst (extract_text_from_image E fc ct st) = Ok (JStr [])).
Proof.
  rewrite extract_text_from_image_run, invoke_run. cbn [fst snd sent].
  split; [reflexivity|]. intros e He. now rewrite He.
Qed.

End VisionCall.

(** ** The structuring request *)

Section StructuringCall.

Variable W : Type.
Variable E : env W.

(** X5. Only the first 3000 characters of the text reach the model: two
    texts that agree on them give the same request, the same record and the
    same state. *)
Theorem text_beyond_3000_is_ignored t1 t2 (st : state W) :
  PyStr.slice_to 3000 t1 = PyStr.slice_to 3000 t2 ->
  parse_receipt_text E (JStr t1) st = parse_receipt_text E (JStr t2) st.
Proof.
  intros H. rewrite !parse_receipt_text_run. cbn [Py.slice_to]. now rewrite H.
Qed.

(** X6. For a text, [parse_receipt_text] sends exactly one request, and the
    prompt of that request has at most 5539 characters: the 2539 of the
    instructions and at most 3000 of the text. *)
Theorem structuring_prompt_is_bounded t (st : state W) :
  exists prompt,
    sent (snd (parse_receipt_text E (JStr t) st))
      = sent st ++ [structuring_request prompt] /\
    request_prompt (structuring_request prompt) = Some (JStr prompt) /\
    List.length prompt = 2539 + Nat.min 3000 (List.length t) /\
    List.length prompt <= 2539 + 3000.
Proof.
  exists (structuring_prompt E (JStr (PyStr.slice_to 3000 t))).
  rewrite parse_receipt_text_run. cbn [Py.slice_to]. cbv zeta.
  rewrite invoke_run. cbn [snd sent].
  split; [reflexivity|]. split; [reflexivity|].
  assert (Hlen : List.length
                   (structuring_prompt E (JStr (PyStr.slice_to 3000 t)))
                 = 2539 + Nat.min 3000 (List.length t)).
  { unfold structuring_prompt, format_field, PyStr.slice_to.
    rewrite !length_app, length_firstn.
    change (List.length structuring_prompt_head) with 2451.
    change (List.length structuring_prompt_tail) with 88. lia. }
  split; [exact Hlen | rewrite Hlen; lia].
Qed.

End StructuringCall.

(** Two texts of 3001 characters that differ in the last one. *)
Lemma text_beyond_3000_is_ignored_3001 :
  let E := Fixture.pdf_world Fixture.receipt_text
             (Ok (Fixture.nova_reply (JStr "{}"))) in
  parse_receipt_text E (JStr (repeat 120%N 3000 ++ lit "A")) Fixture.start
  = parse_receipt_text E (JStr (repeat 120%N 3000 ++ lit "B")) Fixture.start.
Proof.
  intros E.
  apply (@text_beyond_3000_is_ignored nat E (repeat 120%N 3000 ++ lit "A")
           (repeat 120%N 3000 ++ lit "B") Fixture.start).
  vm_compute. reflexivity.
Defined.

(** ** The requests and the envelope of an invocation *)

Section Invocation.

Variable W : Type.
Variable E : env W.

Lemma adds_structuring_none n (st : state W) : adds_structuring n st st.
Proof.
  exists []. rewrite app_nil_r. repeat split; [simpl; lia | intros r []].
Qed.

Lemma parse_receipt_text_sent x (st : state W) :
  adds_structuring 1 st (snd (parse_receipt_text E x st)).
Proof.
  rewrite parse_receipt_text_run.
  destruct (Py.slice_to (dict_slice E) 3000 x) as [h|e];
    [|apply adds_structuring_none].
  cbv zeta. rewrite invoke_run. cbn [snd sent].
  eexists. split; [reflexivity|]. split; [simpl; lia|].
  intros r [<- | []]. now eexists.
Qed.

Lemma parse_extracted_sent x (st : state W) :
  adds_structuring 1 st (snd (parse_extracted E x st)).
Proof.
  destruct (Py.truthy x) eqn:Ht.
  - pose proof (parse_receipt_text_sent x st) as Hsent.
    destruct (parse_receipt_text E x st) as [[d|e] st'] eqn:Hd.
    + rewrite (parse_extracted_truthy E x st Ht Hd).
      now destruct (text_preview E x).
    + destruct (parse_receipt_text_returns E x st) as (d & st2 & Hd' & _).
      rewrite Hd in Hd'. discriminate Hd'.
  - rewrite (parse_extracted_falsy E x st Ht). apply adds_structuring_none.
Qed.

Lemma parse_receipt_state fc fn ct (st : state W) :
  snd (parse_receipt E fc fn ct st) = snd (parse_receipt_try E fc fn ct st).
Proof.
  unfold parse_receipt, try_except.
  now destruct (parse_receipt_try E fc fn ct st) as [[r|e] st'].
Qed.

(** X7. One invocation of [parse_receipt] sends at most two requests to the
    model. On the PDF route it sends at most one, a structuring request,
    and never a vision request; on the image route it sends the vision
    request first; for an unsupported type it sends none. *)
Theorem parse_receipt_request_budget fc fn ct (st : state W) :
  exists new,
    sent (snd (parse_receipt E fc fn ct st)) = sent st ++ new /\
    List.length new <= 2 /\
    (is_pdf E fn ct = true ->
     List.length new <= 1 /\
     forall r, In r new -> exists prompt, r = structuring_request prompt) /\
    (is_pdf E fn ct = false -> is_image E fn ct = true ->
     exists rest, new = vision_request (b64encode E fc) ct :: rest) /\
    (is_pdf E fn ct = false -> is_image E fn ct = false -> new = []).
Proof.
  rewrite parse_receipt_state. unfold parse_receipt_try, bind.
  destruct (is_pdf E fn ct) eqn:Hpdf.
  - rewrite extract_text_from_pdf_run.
    destruct (parse_extracted_sent (JStr (pdf_text E fc)) st)
      as (new & Hnew & Hlen & Hall).
    exists new. repeat split; try assumption; try discriminate. lia.
  - destruct (is_image E fn ct) eqn:Himg.
    + assert (Hone : sent (snd (extract_text_from_image E fc ct st))
                     = sent st ++ [vision_request (b64encode E fc) ct])
        by now rewrite extract_text_from_image_run, invoke_run.
      destruct (extract_text_from_image_returns E fc ct st) as (x & st1 & Hx).
      rewrite Hx in Hone |- *. cbn [snd] in Hone.
      destruct (parse_extracted_sent x st1) as (new & Hnew & Hlen & Hall).
      exists (vision_request (b64encode E fc) ct :: new).
      rewrite Hnew, Hone, <- app_assoc.
      repeat split; try discriminate; [simpl; lia | now exists new].
    + exists []. cbn [snd]. rewrite app_nil_r.
      repeat split; try discriminate; simpl; lia.
Qed.

(** X8. The envelope [parse_receipt] returns has one of two shapes: the keys
    [success], [error], [data] with [success] false, or the keys [success],
    [extracted_text], [data] with [success] true. So [error] is present
    exactly when [success] is false, and the preview exactly when it is
    true. *)
Theorem envelope_has_two_shapes fc fn ct (st : state W) :
  exists r,
    fst (parse_receipt E fc fn ct st) = Ok r /\
    (keys r = [lit "success"; lit "error"; lit "data"] /\
     field "success" r = Some (JBool false) \/
     keys r = [lit "success"; lit "extracted_text"; lit "data"] /\
     field "success" r = Some (JBool true)).
Proof.
  destruct (parse_receipt_try_cases E fc fn ct st)
    as (d & st' & _ & [[error H] | [[p H] | [e H]]]).
  - rewrite (parse_receipt_of_try E fc fn ct st H).
    eexists. split; [reflexivity|]. left. now split.
  - rewrite (parse_receipt_of_try E fc fn ct st H).
    eexists. split; [reflexivity|]. right. now split.
  - rewrite (parse_receipt_of_raise E fc fn ct st H).
    eexists. split; [reflexivity|]. left. now split.
Qed.

(** X9. When the text an extraction returns is true in a test but has no
    length ([True] or a number other than zero, which the vision model can
    return in place of a string), the structuring stage sends nothing, [len]
    raises outside of every stage, and [parse_receipt] returns the failure
    envelope with the message of that exception. *)
Theorem text_without_length_fails fc fn ct (st st1 : state W) x e :
  extracts E fc fn ct st x st1 ->
  Py.truthy x = true ->
  Py.len x = Raise e ->
  parse_receipt E fc fn ct st
    = (Ok (failure (exn_str e) fallback_record), st1)
  /\ parse_receipt_text E x st1 = (Ok fallback_record, st1)
  /\ (exists st2, parse_receipt_try E fc fn ct st = (Raise e, st2))
  /\ sent (snd (parse_receipt E fc fn ct st)) = sent st1
  /\ entry "success" (parse_receipt E fc fn ct st) = Ok (JBool false)
  /\ entry "error" (parse_receipt E fc fn ct st) = Ok (JStr (exn_str e))
  /\ entry "data" (parse_receipt E fc fn ct st) = Ok fallback_record.
Proof.
  intros Hx Ht Hlen.
  assert (Hd : parse_receipt_text E x st1 = (Ok fallback_record, st1)).
  { rewrite parse_receipt_text_run.
    destruct x; cbn [Py.len] in Hlen; try discriminate Hlen; reflexivity. }
  assert (Htry : parse_receipt_try E fc fn ct st = (Raise e, st1)).
  { rewrite (parse_receipt_try_extracts Hx).
    rewrite (parse_extracted_truthy E x st1 Ht Hd).
    unfold text_preview, and_then. now rewrite Hlen. }
  rewrite (parse_receipt_of_raise E fc fn ct st Htry).
  repeat split; [exact Hd | now exists st1].
Qed.

(** X10. Whatever the extraction returns that is false in a test ([None],
    [False], zero, an empty list or dict as well as the empty string) counts
    as no text: [parse_receipt] returns the failure envelope of the empty
    text and sends no structuring request. *)
Theorem falsy_text_fails fc fn ct (st st1 : state W) x :
  extracts E fc fn ct st x st1 ->
  Py.truthy x = false ->
  parse_receipt E fc fn ct st
    = (Ok (failure "No text could be extracted from the file" fallback_record),
       st1)
  /\ sent (snd (parse_receipt E fc fn ct st)) = sent st1
  /\ entry "success" (parse_receipt E fc fn ct st) = Ok (JBool false)
  /\ entry "error" (parse_receipt E fc fn ct st)
     = Ok (JStr "No text could be extracted from the file")
  /\ entry "data" (parse_receipt E fc fn ct st) = Ok fallback_record.
Proof.
  intros Hx Ht.
  assert (Hrun : parse_receipt E fc fn ct st
    = (Ok (failure "No text could be extracted from the file" fallback_record),
       st1)).
  { apply parse_receipt_of_try.
    rewrite (parse_receipt_try_extracts Hx). now apply parse_extracted_falsy. }
  rewrite Hrun. repeat split.
Qed.

End Invocation.

(** A transcription that is the number 42. *)
Lemma text_without_length_fails_42 :
  let E := Fixture.world (Ok []) (Ok (Fixture.nova_reply (JInt 42)))
             (Ok (Fixture.nova_reply (JStr "{}"))) in
  let run :=
    parse_receipt E Fixture.png_bytes "scan.png" "image/png" Fixture.start in
  let st1 := State 1 [vision_request Fixture.png_base64 "image/png"] in
  let e := Py.type_error "object of type 'int' has no len()" in
  run = (Ok (failure "object of type 'int' has no len()" fallback_record), st1)
  /\ parse_receipt_text E (JInt 42) st1 = (Ok fallback_record, st1)
  /\ (exists st2,
        parse_receipt_try E Fixture.png_bytes "scan.png" "image/png"
          Fixture.start = (Raise e, st2))
  /\ sent (snd run) = sent st1
  /\ entry "success" run = Ok (JBool false)
  /\ entry "error" run = Ok (JStr "object of type 'int' has no len()")
  /\ entry "data" run = Ok fallback_record.
Proof.
  intros E run st1 e.
  apply (@text_without_length_fails nat E Fixture.png_bytes "scan.png"
           "image/png" Fixture.start
           (State 1 [vision_request Fixture.png_base64 "image/png"])
           (JInt 42)
           (Py.type_error "object of type 'int' has no len()")).
  - right. repeat split; vm_compute; reflexivity.
  - reflexivity.
  - reflexivity.
Defined.

(** A transcription that is [null]. *)
Lemma falsy_text_fails_null :
  let E := Fixture.world (Ok []) (Ok (Fixture.nova_reply JNull))
             (Ok (Fixture.nova_reply (JStr "{}"))) in
  let run :=
    parse_receipt E Fixture.png_bytes "scan.png" "image/png" Fixture.start in
  let st1 := State 1 [vision_request Fixture.png_base64 "image/png"] in
  run
    = (Ok (failure "No text could be extracted from the file" fallback_record),
       st1)
  /\ sent (snd run) = sent st1
  /\ entry "success" run = Ok (JBool false)
  /\ entry "error" run = Ok (JStr "No text could be extracted from the file")
  /\ entry "data" run = Ok fallback_record.
Proof.
  intros E run st1.
  apply (@falsy_text_fails nat E Fixture.png_bytes "scan.png" "image/png"
           Fixture.start
           (State 1 [vision_request Fixture.png_base64 "image/png"]) JNull).
  - right. repeat split; vm_compute; reflexivity.
  - reflexivity.
Defined.

(** * Properties of the HTTP layer *)

Lemma existsb_eqb_in (s : str) (l : list str) :
  existsb (PyStr.eqb s) l = true <-> In s l.
Proof.
  rewrite existsb_exists. split.
  - intros (x & Hin & Heq). apply eqb_eq in Heq. now subst x.
  - intros Hin. exists s. split; [exact Hin | apply eqb_refl].
Qed.

Lemma existsb_eqb_not_in (s : str) (l : list str) :
  ~ In s l -> existsb (PyStr.eqb s) l = false.
Proof.
  intros Hin. destruct (existsb (PyStr.eqb s) l) eqn:H; [|reflexivity].
  now apply existsb_eqb_in in H.
Qed.

(** ** The parser of the process *)

Section Singleton.

Variable W : Type.
Variable H : host W.

(** X11. Once [get_receipt_parser] has returned a parser, every later call
    returns the same parser and constructs nothing. *)
Theorem built_parser_is_reused (p p1 : process W) parser :
  SimpleMain.get_receipt_parser H p = (Return parser, p1) ->
  SimpleMain.get_receipt_parser H p1 = (Return parser, p1) /\
  constructions (snd (SimpleMain.get_receipt_parser H p1)) = constructions p1.
Proof.
  unfold SimpleMain.get_receipt_parser. intros Hget.
  assert (Hp1 : receipt_parser p1 = Some parser).
  { destruct (receipt_parser p) as [q|] eqn:Hq.
    - injection Hget as <- <-. exact Hq.
    - destruct (new_parser H (constructions p)); [|discriminate Hget].
      injection Hget as <- <-. reflexivity. }
  rewrite Hp1. now split.
Qed.

(** X12. A construction of the parser that fails is not remembered. When the
    constructor raises at start-up, [startup_event] still returns, the
    global stays [None], the first request answers 500 if the constructor
    raises again, and gets the parser as soon as the constructor succeeds. *)
Theorem failed_construction_is_retried (p : process W) e :
  receipt_parser p = None ->
  new_parser H (constructions p) = Raise e ->
  let p1 := SimpleMain.startup_event H p in
  receipt_parser p1 = None /\
  constructions p1 = S (constructions p) /\
  (forall e', new_parser H (constructions p1) = Raise e' ->
     fst (SimpleMain.get_receipt_parser H p1)
     = RaiseHTTP 500 (lit "Receipt parser initialization failed: " ++ exn_str e')) /\
  (forall parser, new_parser H (constructions p1) = Ok parser ->
     fst (SimpleMain.get_receipt_parser H p1) = Return parser).
Proof.
  intros Hnone Hraise p1.
  assert (Hp1 : p1 = Process None (S (constructions p))).
  { unfold p1, SimpleMain.startup_event, SimpleMain.get_receipt_parser.
    now rewrite Hnone, Hraise. }
  rewrite Hp1. cbn [receipt_parser constructions].
  unfold SimpleMain.get_receipt_parser. cbn [receipt_parser constructions].
  repeat split.
  - intros e' He'. now rewrite He'.
  - intros parser Hparser. now rewrite Hparser.
Qed.

End Singleton.

(** A parser that exists is returned as it is. *)
Lemma built_parser_is_reused_ready :
  let H := HttpFixture.second_try HttpFixture.blind_parser in
  let p := HttpFixture.ready HttpFixture.blind_parser in
  SimpleMain.get_receipt_parser H p = (Return HttpFixture.blind_parser, p) /\
  constructions (snd (SimpleMain.get_receipt_parser H p)) = 2.
Proof.
  intros H p.
  apply (@built_parser_is_reused nat H p p HttpFixture.blind_parser).
  reflexivity.
Defined.

(** The constructor fails at start-up and succeeds at the first request. *)
Lemma failed_construction_is_retried_once :
  let H := HttpFixture.second_try HttpFixture.blind_parser in
  let p1 := SimpleMain.startup_event H HttpFixture.loaded in
  receipt_parser p1 = None /\
  constructions p1 = 1 /\
  (forall e', new_parser H (constructions p1) = Raise e' ->
     fst (SimpleMain.get_receipt_parser H p1)
     = RaiseHTTP 500 (lit "Receipt parser initialization failed: " ++ exn_str e')) /\
  (forall parser, new_parser H (constructions p1) = Ok parser ->
     fst (SimpleMain.get_receipt_parser H p1) = Return parser).
Proof.
  intros H.
  apply (@failed_construction_is_retried nat H HttpFixture.loaded
           HttpFixture.no_credentials); reflexivity.
Defined.

(** ** The endpoint of simple_main.py *)

Section Endpoint.

Variable W : Type.
Variable H : host W.

(** X13. An upload whose content type is missing or is not one of
    [allowed_types] is answered with an [HTTPException] of status 400 before
    anything else happens: whatever the file holds, no parser is
    constructed and nothing is sent to the model. *)
Theorem unlisted_type_is_400 file now (p : process W) (st : state W) :
  content_type file = None \/
  (exists ct, content_type file = Some ct /\ ~ In ct SimpleMain.allowed_types) ->
  SimpleMain.parse_receipt H file now p st
    = (RaiseHTTP 400 (SimpleMain.unsupported (content_type file)), p, st).
Proof.
  unfold SimpleMain.parse_receipt, SimpleMain.parse_receipt_try.
  intros [-> | (ct & -> & Hin)]; [reflexivity|].
  now rewrite (existsb_eqb_not_in _ _ Hin).
Qed.

(** X14. An upload of an allowed type whose content is empty is answered
    with status 400 and the detail "Empty file"; no parser is constructed
    and nothing is sent to the model. *)
Theorem empty_file_is_400 file ct now (p : process W) (st : state W) :
  content_type file = Some ct ->
  In ct SimpleMain.allowed_types ->
  read file = Ok [] ->
  SimpleMain.parse_receipt H file now p st
    = (RaiseHTTP 400 (lit "Empty file"), p, st).
Proof.
  unfold SimpleMain.parse_receipt, SimpleMain.parse_receipt_try,
    SimpleMain.parse_receipt_allowed.
  intros -> Hin ->. apply existsb_eqb_in in Hin. now rewrite Hin.
Qed.

(** The envelope of the parser has no entry [document_type]. *)
Lemma envelope_has_no_document_type (E : env W) fc fn ct (st : state W) :
  exists envelope,
    fst (parse_receipt E fc fn ct st) = Ok envelope /\
    PyMore.get envelope "document_type" (JStr "receipt") = Ok (JStr "receipt").
Proof.
  destruct (parse_receipt_try_cases E fc fn ct st)
    as (d & st' & _ & [[error Hrun] | [[p Hrun] | [e Hrun]]]).
  - rewrite (parse_receipt_of_try E fc fn ct st Hrun). now eexists.
  - rewrite (parse_receipt_of_try E fc fn ct st Hrun). now eexists.
  - rewrite (parse_receipt_of_raise E fc fn ct st Hrun). now eexists.
Qed.

(** X15. When an upload of an allowed type is not empty and the parser of
    the process exists or can be constructed, the endpoint builds a content
    whose [success] is true and whose [document_type] is "receipt",
    whatever envelope the parser returned: the envelope, failure or not, is
    passed on under [extracted_data]. When [JSONResponse] renders this
    content, the endpoint answers with status 200 and the rendered content;
    when the rendering raises, it raises an [HTTPException] of status 500
    whose detail is "Document processing failed: " followed by the message
    of the exception. *)
Theorem endpoint_wraps_every_envelope file ct fc now (p p1 : process W)
    (st : state W) parser :
  content_type file = Some ct ->
  In ct SimpleMain.allowed_types ->
  read file = Ok fc ->
  fc <> [] ->
  SimpleMain.get_receipt_parser H p = (Return parser, p1) ->
  exists envelope st',
    parse_receipt parser fc (filename file) ct st = (Ok envelope, st') /\
    let content :=
      SimpleMain.response (JStr "receipt") envelope file fc now in
    field "success" content = Some (JBool true) /\
    field "document_type" content = Some (JStr "receipt") /\
    field "extracted_data" content = Some envelope /\
    keys content
      = [lit "success"; lit "document_type"; lit "extracted_data";
         lit "file_info"; lit "processed_at"; lit "message"] /\
    (forall rendered,
       render H content = Ok rendered ->
       SimpleMain.parse_receipt H file now p st
         = (Return (Response 200 rendered), p1, st')) /\
    (forall e,
       render H content = Raise e ->
       SimpleMain.parse_receipt H file now p st
         = (RaiseHTTP 500 (lit "Document processing failed: " ++ exn_str e),
            p1, st')).
Proof.
  intros Hct Hin Hread Hfc Hget.
  destruct (envelope_has_no_document_type parser fc (filename file) ct st)
    as (envelope & Henv & Hdoc).
  destruct (parse_receipt parser fc (filename file) ct st)
    as [r st'] eqn:Hrun.
  cbn [fst] in Henv. subst r.
  exists envelope, st'. split; [reflexivity|].
  cbv zeta. do 4 (split; [reflexivity|]).
  apply existsb_eqb_in in Hin.
  split; intros out Hrender;
    unfold SimpleMain.parse_receipt, SimpleMain.parse_receipt_try,
      SimpleMain.parse_receipt_allowed;
    rewrite Hct, Hin, Hread; cbn [negb];
    (destruct fc as [|b fc]; [now destruct Hfc|]); cbn [List.length Nat.eqb];
    rewrite Hget, Hrun, Hdoc; cbn [and_then]; now rewrite Hrender.
Qed.

(** X16. The endpoint raises nothing but [HTTPException]s, of status 400 or
    500, and what it returns has status 200. An exception raised while the
    file is read becomes a 500 whose detail is "Document processing
    failed: " followed by its message. *)
Theorem endpoint_raises_only_http file now (p : process W) (st : state W) :
  (let o := fst (fst (SimpleMain.parse_receipt H file now p st)) in
   (exists rendered, o = Return (Response 200 rendered)) \/
   (exists status detail,
      o = RaiseHTTP status detail /\ (status = 400 \/ status = 500)%Z)) /\
  (forall ct e,
     content_type file = Some ct -> In ct SimpleMain.allowed_types ->
     read file = Raise e ->
     SimpleMain.parse_receipt H file now p st
       = (RaiseHTTP 500 (lit "Document processing failed: " ++ exn_str e),
          p, st)).
Proof.
  split.
  - unfold SimpleMain.parse_receipt, SimpleMain.parse_receipt_try,
      SimpleMain.parse_receipt_allowed, SimpleMain.get_receipt_parser.
    cbv zeta.
    destruct (content_type file) as [ct|];
      [|right; eexists; eexists; split; [reflexivity | now left]].
    destruct (negb (existsb (PyStr.eqb ct) SimpleMain.allowed_types));
      [right; eexists; eexists; split; [reflexivity | now left]|].
    destruct (read file) as [fc|e];
      [|right; eexists; eexists; split; [reflexivity | now right]].
    destruct (Nat.eqb (List.length fc) 0);
      [right; eexists; eexists; split; [reflexivity | now left]|].
    destruct (receipt_parser p) as [parser|].
    + destruct (parse_receipt parser fc (filename file) ct st)
        as [[envelope|e] st'];
        [|right; eexists; eexists; split; [reflexivity | now right]].
      destruct (and_then _ _) as [rendered|e];
        [left; now eexists
        |right; eexists; eexists; split; [reflexivity | now right]].
    + destruct (new_parser H (constructions p)) as [parser|e];
        [|right; eexists; eexists; split; [reflexivity | now right]].
      destruct (parse_receipt parser fc (filename file) ct st)
        as [[envelope|e] st'];
        [|right; eexists; eexists; split; [reflexivity | now right]].
      destruct (and_then _ _) as [rendered|e];
        [left; now eexists
        |right; eexists; eexists; split; [reflexivity | now right]].
  - intros ct e Hct Hin Hread.
    unfold SimpleMain.parse_receipt, SimpleMain.parse_receipt_try,
      SimpleMain.parse_receipt_allowed.
    apply existsb_eqb_in in Hin. now rewrite Hct, Hin, Hread.
Qed.

End Endpoint.

(** A ZIP archive is refused before the constructor is ever called. *)
Lemma unlisted_type_is_400_zip :
  let H := HttpFixture.second_try HttpFixture.blind_parser in
  SimpleMain.parse_receipt H HttpFixture.zip_upload HttpFixture.now
    HttpFixture.loaded Fixture.start
  = (RaiseHTTP 400
       (SimpleMain.unsupported (Some (lit "application/zip"))),
     HttpFixture.loaded, Fixture.start).
Proof.
  intros H.
  apply (@unlisted_type_is_400 nat H HttpFixture.zip_upload HttpFixture.now
           HttpFixture.loaded Fixture.start).
  right. exists (lit "application/zip"). split; [reflexivity|].
  intros Hin. vm_compute in Hin.
  repeat (destruct Hin as [Hin | Hin]; [discriminate Hin|]). exact Hin.
Defined.

(** An empty PNG. *)
Lemma empty_file_is_400_png :
  let H := HttpFixture.second_try HttpFixture.blind_parser in
  SimpleMain.parse_receipt H HttpFixture.empty_upload HttpFixture.now
    HttpFixture.loaded Fixture.start
  = (RaiseHTTP 400 (lit "Empty file"), HttpFixture.loaded, Fixture.start).
Proof.
  intros H.
  apply (@empty_file_is_400 nat H HttpFixture.empty_upload (lit "image/png")
           HttpFixture.now HttpFixture.loaded Fixture.start).
  - reflexivity.
  - vm_compute. tauto.
  - reflexivity.
Defined.

(** A PNG in which the vision model reads nothing: the envelope says
    failure, the endpoint says success. *)
Lemma endpoint_wraps_every_envelope_blind :
  let H := HttpFixture.second_try HttpFixture.blind_parser in
  let p := HttpFixture.ready HttpFixture.blind_parser in
  exists envelope st',
    parse_receipt HttpFixture.blind_parser Fixture.png_bytes "scan.png"
      "image/png" Fixture.start = (Ok envelope, st') /\
    let content :=
      SimpleMain.response (JStr "receipt") envelope HttpFixture.png_upload
        Fixture.png_bytes HttpFixture.now in
    field "success" content = Some (JBool true) /\
    field "document_type" content = Some (JStr "receipt") /\
    field "extracted_data" content = Some envelope /\
    keys content
      = [lit "success"; lit "document_type"; lit "extracted_data";
         lit "file_info"; lit "processed_at"; lit "message"] /\
    (forall rendered,
       render H content = Ok rendered ->
       SimpleMain.parse_receipt H HttpFixture.png_upload HttpFixture.now p
         Fixture.start
       = (Return (Response 200 rendered), p, st')) /\
    (forall e,
       render H content = Raise e ->
       SimpleMain.parse_receipt H HttpFixture.png_upload HttpFixture.now p
         Fixture.start
       = (RaiseHTTP 500 (lit "Document processing failed: " ++ exn_str e),
          p, st')).
Proof.
  intros H p.
  apply (@endpoint_wraps_every_envelope nat H HttpFixture.png_upload
           (lit "image/png") Fixture.png_bytes HttpFixture.now p p
           Fixture.start HttpFixture.blind_parser).
  - reflexivity.
  - vm_compute. tauto.
  - reflexivity.
  - discriminate.
  - reflexivity.
Defined.

(** The envelope of that example is a failure. *)
Example blind_envelope_is_a_failure :
  fst (parse_receipt HttpFixture.blind_parser Fixture.png_bytes "scan.png"
         "image/png" Fixture.start)
  = Ok (failure "No text could be extracted from the file" fallback_record).
Proof. vm_compute. reflexivity. Qed.

(** ** The content types the endpoints let through *)

Lemma vercel_types_are_simple_types ct :
  In ct VercelMain.allowed_types -> In ct SimpleMain.allowed_types.
Proof.
  unfold VercelMain.allowed_types, SimpleMain.allowed_types. simpl.
  intuition.
Qed.

Section Routing.

Variable W : Type.
Variable E : env W.

(** X17. Every content type the endpoints let through is given to an
    extraction strategy by [parse_receipt], whatever the file name: the
    branch of the unsupported type cannot be reached through the
    endpoints. A file name ending in [.pdf] still sends an image type to
    the PDF strategy. *)
Theorem allowed_types_are_extracted fc fn ct (st : state W) :
  In ct SimpleMain.allowed_types \/ In ct VercelMain.allowed_types ->
  (exists x st1, extracts E fc fn ct st x st1) /\
  (endswith (lower E fn) ".pdf" = true ->
   extracts E fc fn ct st (JStr (pdf_text E fc)) st).
Proof.
  intros Hin.
  assert (Hct : In ct SimpleMain.allowed_types)
    by (destruct Hin; [assumption | now apply vercel_types_are_simple_types]).
  clear Hin. split.
  - destruct (is_pdf E fn ct) eqn:Hpdf.
    + exists (JStr (pdf_text E fc)), st. left.
      split; [exact Hpdf | apply extract_text_from_pdf_run].
    + destruct (extract_text_from_image_returns E fc ct st) as (x & st1 & Hx).
      exists x, st1. right. split; [exact Hpdf|]. split; [|exact Hx].
      unfold is_pdf in Hpdf. apply orb_false_iff in Hpdf as [Hpdf _].
      unfold is_image.
      unfold SimpleMain.allowed_types in Hct. simpl in Hct.
      destruct Hct as [<- | Hct]; [discriminate Hpdf|].
      repeat (destruct Hct as [<- | Hct]; [reflexivity|]). destruct Hct.
  - intros Hname. left. split; [|apply extract_text_from_pdf_run].
    unfold is_pdf. rewrite Hname. apply orb_true_r.
Qed.

End Routing.

(** A PNG is read by the vision model. *)
Lemma allowed_types_are_extracted_png :
  (exists x st1,
     extracts HttpFixture.blind_parser Fixture.png_bytes "scan.png"
       "image/png" Fixture.start x st1) /\
  (endswith (lower HttpFixture.blind_parser "scan.png") ".pdf" = true ->
   extracts HttpFixture.blind_parser Fixture.png_bytes "scan.png" "image/png"
     Fixture.start (JStr (pdf_text HttpFixture.blind_parser Fixture.png_bytes))
     Fixture.start).
Proof.
  apply (@allowed_types_are_extracted nat HttpFixture.blind_parser
           Fixture.png_bytes (lit "scan.png") (lit "image/png") Fixture.start).
  left. vm_compute. tauto.
Defined.

Section Deployments.

Variable W : Type.
Variable H : host W.

(** X18. The endpoint of vercel_main.py lets through the content types of
    simple_main.py except [image/bmp]. A BMP image, which the parser
    handles as an image, is answered there with status 400, before any
    parser is constructed. *)
Theorem vercel_refuses_bmp file now (p : process W) (st : state W) :
  content_type file = Some (lit "image/bmp") ->
  (forall ct,
     In ct SimpleMain.allowed_types <->
     In ct VercelMain.allowed_types \/ ct = lit "image/bmp") /\
  VercelMain.parse_receipt H file now p st
    = (RaiseHTTP 400 (lit "Unsupported file type: image/bmp"), p, st) /\
  (forall E : env W, forall fn, is_pdf E fn "image/bmp" = false ->
     is_image E fn "image/bmp" = true).
Proof.
  intros Hct. split; [|split].
  - intros ct. unfold SimpleMain.allowed_types, VercelMain.allowed_types.
    simpl. intuition.
  - unfold VercelMain.parse_receipt, VercelMain.parse_receipt_try.
    rewrite Hct. reflexivity.
  - intros E fn _. reflexivity.
Qed.

End Deployments.

(** The upload of a BMP image. *)
Lemma vercel_refuses_bmp_upload :
  let H := HttpFixture.second_try HttpFixture.blind_parser in
  (forall ct,
     In ct SimpleMain.allowed_types <->
     In ct VercelMain.allowed_types \/ ct = lit "image/bmp") /\
  VercelMain.parse_receipt H HttpFixture.bmp_upload HttpFixture.now
    HttpFixture.loaded Fixture.start
    = (RaiseHTTP 400 (lit "Unsupported file type: image/bmp"),
       HttpFixture.loaded, Fixture.start) /\
  (forall E : env nat, forall fn, is_pdf E fn "image/bmp" = false ->
     is_image E fn "image/bmp" = true).
Proof.
  intros H.
  apply (@vercel_refuses_bmp nat H HttpFixture.bmp_upload HttpFixture.now
           HttpFixture.loaded Fixture.start).
  reflexivity.
Defined.

(** * Properties of the serverless function *)

Lemma endswith_parse_receipt s :
  endswith s "/parse-receipt" = true ->
  endswith s "/health" = false /\ endswith s "/" = false.
Proof.
  unfold endswith. generalize (rev s). intros r Hr.
  replace (rev (lit "/parse-receipt"))
    with (116%N :: rev (lit "/parse-receip")) in Hr by reflexivity.
  destruct r as [|c r]; [discriminate Hr|].
  cbn [startswith] in Hr. apply andb_true_iff in Hr as [Hc _].
  apply N.eqb_eq in Hc. subst c. split; reflexivity.
Qed.

Section Handler.

Variable B : builtins.
Variable imported : bool.

(** The [try] block returns the answer of a route, for the path and the
    method it read. *)
Lemma handler_try_routes request now r :
  ApiIndex.handler_try B imported request now = Ok r ->
  exists path method, r = ApiIndex.route B imported path method now.
Proof.
  unfold ApiIndex.handler_try, and_then. intros Hr.
  destruct (PyMore.get request "path" (JStr "/")) as [p|e]; [|discriminate Hr].
  destruct (PyMore.case_method "lower" (str_lower B) p) as [path|e];
    [|discriminate Hr].
  destruct (PyMore.get request "method" (JStr "GET")) as [m|e];
    [|discriminate Hr].
  destruct (PyMore.case_method "upper" (str_upper B) m) as [method|e];
    [|discriminate Hr].
  apply Ok_inj in Hr. subst r. now exists path, method.
Qed.

Lemma handler_try_reads request now p m :
  PyMore.get request "path" (JStr "/") = Ok (JStr p) ->
  PyMore.get request "method" (JStr "GET") = Ok (JStr m) ->
  ApiIndex.handler_try B imported request now
    = Ok (ApiIndex.route B imported (str_lower B p) (str_upper B m) now).
Proof.
  intros Hp Hm. unfold ApiIndex.handler_try, and_then.
  now rewrite Hp, Hm.
Qed.

(** X19. [handler] raises nothing and always answers with a dict whose
    keys are [statusCode], [headers] and [body]: the status is the integer
    200, 404 or 500, the headers are a dict that allows any origin on
    every branch, and the body is a string. *)
Theorem handler_always_answers request now :
  let r := ApiIndex.handler B imported request now in
  exists status headers body,
    keys r = [lit "statusCode"; lit "headers"; lit "body"] /\
    Py.getitem r "statusCode" = Ok (JInt status) /\
    Py.getitem r "headers" = Ok (JObj headers) /\
    Py.getitem r "body" = Ok (JStr body) /\
    (status = 200 \/ status = 404 \/ status = 500)%Z /\
    Py.getitem (JObj headers) "Access-Control-Allow-Origin" = Ok (JStr "*").
Proof.
  cbv zeta. unfold ApiIndex.handler.
  destruct (ApiIndex.handler_try B imported request now) as [r|e] eqn:Hr.
  - apply handler_try_routes in Hr as (path & method & ->).
    unfold ApiIndex.route.
    destruct (endswith path "/health" || endswith path "/");
      [eexists; eexists; eexists; do 4 (split; [reflexivity|]); split;
       [now left | reflexivity]|].
    destruct (PyStr.eqb method "OPTIONS");
      [eexists; eexists; eexists; do 4 (split; [reflexivity|]); split;
       [now left | reflexivity]|].
    destruct (endswith path "/parse-receipt" && PyStr.eqb method "POST");
      [destruct imported|];
      eexists; eexists; eexists; do 4 (split; [reflexivity|]); split;
      try reflexivity; tauto.
  - eexists; eexists; eexists. do 4 (split; [reflexivity|]). split;
      [tauto | reflexivity].
Qed.

(** X20. The health check comes first: a request whose lower-cased path
    ends in [/health] or in a slash, and whose method is a string or is
    missing, gets the health answer with status 200 whatever that method
    is, so that a path with a trailing slash never reaches another route,
    and neither does a request without [path], whose path is "/". The
    method is read before the path is tested: a request to such a path
    whose method is not a string is answered with status 500. *)
Theorem health_check_comes_first request now p :
  PyMore.get request "path" (JStr "/") = Ok (JStr p) ->
  endswith (str_lower B p) "/health" || endswith (str_lower B p) "/" = true ->
  let r := ApiIndex.handler B imported request now in
  (forall m,
     PyMore.get request "method" (JStr "GET") = Ok (JStr m) ->
     keys r = [lit "statusCode"; lit "headers"; lit "body"] /\
     Py.getitem r "statusCode" = Ok (JInt 200) /\
     Py.getitem r "headers"
       = Ok (JObj
         [ (lit "Content-Type", JStr "application/json");
           (lit "Access-Control-Allow-Origin", JStr "*");
           (lit "Access-Control-Allow-Methods", JStr "GET, POST, OPTIONS");
           (lit "Access-Control-Allow-Headers", JStr "Content-Type") ]) /\
     Py.getitem r "body"
       = Ok (JStr (json_dumps B (JObj
         [ (lit "status", JStr "healthy");
           (lit "service", JStr "Asset Tracker AI (Vercel Serverless)");
           (lit "timestamp", JStr now);
           (lit "version", JStr "1.0.0");
           (lit "parser_available", JBool imported) ])))) /\
  (forall v,
     PyMore.get request "method" (JStr "GET") = Ok v ->
     (forall m, v <> JStr m) ->
     keys r = [lit "statusCode"; lit "headers"; lit "body"] /\
     Py.getitem r "statusCode" = Ok (JInt 500) /\
     Py.getitem r "body"
       = Ok (JStr (json_dumps B (JObj
         [ (lit "success", JBool false);
           (lit "error",
            JStr (lit "'" ++ Py.type_name v
                  ++ lit "' object has no attribute 'upper'"));
           (lit "timestamp", JStr now) ])))).
Proof.
  intros Hp Hhealth r. subst r. split.
  - intros m Hm. unfold ApiIndex.handler.
    rewrite (handler_try_reads request now Hp Hm). unfold ApiIndex.route.
    rewrite Hhealth. repeat split.
  - intros v Hv Hstr.
    unfold ApiIndex.handler, ApiIndex.handler_try, and_then.
    rewrite Hp, Hv. cbn [PyMore.case_method].
    destruct v; try (now destruct (Hstr s)); repeat split.
Qed.

(** X21. A request that is not a dict, or whose [path] is not a string, is
    answered with status 500, the headers of a JSON answer that allows any
    origin, and the message of the [AttributeError] in the body. *)
Theorem malformed_request_is_500 request now message :
  (forall kv, request <> JObj kv) /\
  message = lit "'" ++ Py.type_name request
            ++ lit "' object has no attribute 'get'" \/
  (exists kv v,
     request = JObj kv /\ Py.lookup "path" kv = Some v /\
     (forall s, v <> JStr s) /\
     message = lit "'" ++ Py.type_name v
               ++ lit "' object has no attribute 'lower'") ->
  let r := ApiIndex.handler B imported request now in
  keys r = [lit "statusCode"; lit "headers"; lit "body"] /\
  Py.getitem r "statusCode" = Ok (JInt 500) /\
  Py.getitem r "headers"
    = Ok (JObj
         [ (lit "Content-Type", JStr "application/json");
           (lit "Access-Control-Allow-Origin", JStr "*") ]) /\
  Py.getitem r "body"
    = Ok (JStr (json_dumps B (JObj
         [ (lit "success", JBool false);
           (lit "error", JStr message);
           (lit "timestamp", JStr now) ]))).
Proof.
  cbv zeta. unfold ApiIndex.handler, ApiIndex.handler_try, and_then.
  intros [[Hnot ->] | (kv & v & -> & Hv & Hstr & ->)].
  - destruct request; try (now destruct (Hnot kv)); repeat split.
  - cbn [PyMore.get]. rewrite Hv.
    destruct v; try (now destruct (Hstr s)); repeat split.
Qed.

(** X22. A POST to a path that ends in [/parse-receipt] parses nothing:
    whatever else the request holds, the answer is the fixed message with
    status 200 and [success] true when the parser class was imported, and
    status 500 with "Receipt parser not available" when it was not. *)
Theorem parse_receipt_route_is_a_stub request now p m :
  PyMore.get request "path" (JStr "/") = Ok (JStr p) ->
  PyMore.get request "method" (JStr "GET") = Ok (JStr m) ->
  endswith (str_lower B p) "/parse-receipt" = true ->
  str_upper B m = lit "POST" ->
  let r := ApiIndex.handler B imported request now in
  keys r = [lit "statusCode"; lit "headers"; lit "body"] /\
  Py.getitem r "statusCode" = Ok (JInt (if imported then 200 else 500)) /\
  Py.getitem r "headers"
    = Ok (JObj
         [ (lit "Content-Type", JStr "application/json");
           (lit "Access-Control-Allow-Origin", JStr "*") ]) /\
  Py.getitem r "body"
    = Ok (JStr (json_dumps B (JObj
        (if imported then
         [ (lit "success", JBool true);
           (lit "message",
            JStr "AI service is available but file upload needs to be handled by main backend");
           (lit "timestamp", JStr now);
           (lit "recommended_approach",
            JStr "Use Node.js backend to handle file uploads and call AWS Bedrock directly") ]
         else
         [ (lit "success", JBool false);
           (lit "error", JStr "Receipt parser not available");
           (lit "message",
            JStr "SimpleBedrockReceiptParser could not be imported") ])))).
Proof.
  intros Hp Hm Hpath Hmethod r. subst r. unfold ApiIndex.handler.
  rewrite (handler_try_reads request now Hp Hm). unfold ApiIndex.route.
  destruct (endswith_parse_receipt _ Hpath) as [-> ->].
  rewrite Hpath, Hmethod. cbn [orb andb].
  change (PyStr.eqb (lit "POST") (lit "OPTIONS")) with false.
  change (PyStr.eqb (lit "POST") (lit "POST")) with true.
  cbn iota. destruct imported; repeat split.
Qed.

End Handler.

(** A POST to the receipt route with a trailing slash is a health check. *)
Lemma health_check_comes_first_trailing_slash :
  let request := JObj [ (lit "path", JStr "/api/Parse-Receipt/");
                        (lit "method", JStr "post") ] in
  let r := ApiIndex.handler HttpFixture.python true request HttpFixture.now in
  (forall m,
     PyMore.get request "method" (JStr "GET") = Ok (JStr m) ->
     keys r = [lit "statusCode"; lit "headers"; lit "body"] /\
     Py.getitem r "statusCode" = Ok (JInt 200) /\
     Py.getitem r "headers"
       = Ok (JObj
         [ (lit "Content-Type", JStr "application/json");
           (lit "Access-Control-Allow-Origin", JStr "*");
           (lit "Access-Control-Allow-Methods", JStr "GET, POST, OPTIONS");
           (lit "Access-Control-Allow-Headers", JStr "Content-Type") ]) /\
     Py.getitem r "body"
       = Ok (JStr (json_dumps HttpFixture.python (JObj
         [ (lit "status", JStr "healthy");
           (lit "service", JStr "Asset Tracker AI (Vercel Serverless)");
           (lit "timestamp", JStr HttpFixture.now);
           (lit "version", JStr "1.0.0");
           (lit "parser_available", JBool true) ])))) /\
  (forall v,
     PyMore.get request "method" (JStr "GET") = Ok v ->
     (forall m, v <> JStr m) ->
     keys r = [lit "statusCode"; lit "headers"; lit "body"] /\
     Py.getitem r "statusCode" = Ok (JInt 500) /\
     Py.getitem r "body"
       = Ok (JStr (json_dumps HttpFixture.python (JObj
         [ (lit "success", JBool false);
           (lit "error",
            JStr (lit "'" ++ Py.type_name v
                  ++ lit "' object has no attribute 'upper'"));
           (lit "timestamp", JStr HttpFixture.now) ])))).
Proof.
  intros request.
  apply (@health_check_comes_first HttpFixture.python true request
           HttpFixture.now (lit "/api/Parse-Receipt/"));
    reflexivity.
Defined.

(** A health check whose method is the number 5. *)
Example health_check_with_a_number :
  let request := JObj [ (lit "path", JStr "/health");
                        (lit "method", JInt 5) ] in
  let r := ApiIndex.handler HttpFixture.python true request HttpFixture.now in
  Py.getitem r "statusCode" = Ok (JInt 500) /\
  Py.getitem r "body"
    = Ok (JStr (json_dumps HttpFixture.python (JObj
        [ (lit "success", JBool false);
          (lit "error", JStr "'int' object has no attribute 'upper'");
          (lit "timestamp", JStr HttpFixture.now) ]))).
Proof. split; vm_compute; reflexivity. Qed.

(** A request that is [null]. *)
Lemma malformed_request_is_500_null :
  let r := ApiIndex.handler HttpFixture.python true JNull HttpFixture.now in
  keys r = [lit "statusCode"; lit "headers"; lit "body"] /\
  Py.getitem r "statusCode" = Ok (JInt 500) /\
  Py.getitem r "headers"
    = Ok (JObj
         [ (lit "Content-Type", JStr "application/json");
           (lit "Access-Control-Allow-Origin", JStr "*") ]) /\
  Py.getitem r "body"
    = Ok (JStr (json_dumps HttpFixture.python (JObj
         [ (lit "success", JBool false);
           (lit "error", JStr "'NoneType' object has no attribute 'get'");
           (lit "timestamp", JStr HttpFixture.now) ]))).
Proof.
  apply (@malformed_request_is_500 HttpFixture.python true JNull
           HttpFixture.now (lit "'NoneType' object has no attribute 'get'")).
  left. split; [intros kv H; discriminate H | reflexivity].
Defined.

(** A POST with an upload in its body. *)
Lemma parse_receipt_route_is_a_stub_upload :
  let request := JObj [ (lit "path", JStr "/api/parse-receipt");
                        (lit "method", JStr "POST");
                        (lit "body", JStr "iVBORw0KGgo=") ] in
  let r := ApiIndex.handler HttpFixture.python true request HttpFixture.now in
  keys r = [lit "statusCode"; lit "headers"; lit "body"] /\
  Py.getitem r "statusCode" = Ok (JInt 200) /\
  Py.getitem r "headers"
    = Ok (JObj
         [ (lit "Content-Type", JStr "application/json");
           (lit "Access-Control-Allow-Origin", JStr "*") ]) /\
  Py.getitem r "body"
    = Ok (JStr (json_dumps HttpFixture.python (JObj
         [ (lit "success", JBool true);
           (lit "message",
            JStr "AI service is available but file upload needs to be handled by main backend");
           (lit "timestamp", JStr HttpFixture.now);
           (lit "recommended_approach",
            JStr "Use Node.js backend to handle file uploads and call AWS Bedrock directly") ]))).
Proof.
  intros request.
  apply (@parse_receipt_route_is_a_stub HttpFixture.python true request
           HttpFixture.now (lit "/api/parse-receipt") (lit "POST"));
    reflexivity.
Defined.

Section ServerlessParser.

Variable W : Type.
Variable H : host W.

(** X23. [get_receipt_parser] of api/index.py keeps the global as that of
    simple_main.py does, and differs in what it reports: where the other
    raises status 500 it returns [None]. When the import of the parser
    class failed it constructs nothing and returns the global as it is. *)
Theorem serverless_parser_returns_none (p : process W) :
  snd (ApiIndex.get_receipt_parser H true p)
    = snd (SimpleMain.get_receipt_parser H p) /\
  (forall parser,
     fst (ApiIndex.get_receipt_parser H true p) = Some parser <->
     fst (SimpleMain.get_receipt_parser H p) = Return parser) /\
  (fst (ApiIndex.get_receipt_parser H true p) = None <->
   exists detail,
     fst (SimpleMain.get_receipt_parser H p) = RaiseHTTP 500 detail) /\
  ApiIndex.get_receipt_parser H false p = (receipt_parser p, p).
Proof.
  unfold ApiIndex.get_receipt_parser, SimpleMain.get_receipt_parser.
  destruct (receipt_parser p) as [q|] eqn:Hq;
    [|destruct (new_parser H (constructions p)) as [q|e]];
    cbn [fst snd]; repeat split; intros;
    try congruence;
    try (match goal with Hex : exists _, _ |- _ => destruct Hex end;
         congruence);
    try (eexists; reflexivity).
Qed.

End ServerlessParser.
